(** * egles / examples / es2 / xorg / triangle

    A shallow embedding of the triangle example (init.go, the main file with
    the render loop, and shader.go) together with the properties its
    specification states about it.

    The program is almost entirely a sequence of calls into external
    libraries (OpenGL ES 2, EGL, xgbutil, log, time, application).  The
    embedding therefore keeps the program text as it is and makes the
    outside world explicit:

    - every external call is an [Event]; a run of a function yields the list
      of events it emitted, in program order;
    - values coming back from the outside (error codes, handles, status
      words, strings) are supplied by a [Driver], an arbitrary state machine
      the theorems quantify over;
    - [panic] and [log.Fatal] are outcomes that cut the rest of the
      computation short. *)

From Stdlib Require Import ZArith QArith List String Ascii Bool Lia HexString.
Import ListNotations.
Local Open Scope Z_scope.
Local Open Scope string_scope.

Set Implicit Arguments.

(** ** Constants of the external packages *)

(** Enumerants of package es2 (the OpenGL ES 2.0 header values). *)
Module gl.
Definition FALSE : Z := 0.
Definition TRUE : Z := 1.
Definition TRIANGLES : Z := 0x0004.
Definition DEPTH_BUFFER_BIT : Z := 0x0100.
Definition COLOR_BUFFER_BIT : Z := 0x4000.
Definition FLOAT : Z := 0x1406.
Definition VENDOR : Z := 0x1F00.
Definition RENDERER : Z := 0x1F01.
Definition VERSION : Z := 0x1F02.
Definition EXTENSIONS : Z := 0x1F03.
Definition ARRAY_BUFFER : Z := 0x8892.
Definition STATIC_DRAW : Z := 0x88E4.
Definition FRAGMENT_SHADER : Z := 0x8B30.
Definition VERTEX_SHADER : Z := 0x8B31.
Definition COMPILE_STATUS : Z := 0x8B81.
Definition LINK_STATUS : Z := 0x8B82.
End gl.

(** Signal numbers of package syscall. *)
Module syscall.
Definition SIGINT : Z := 2.
Definition SIGTERM : Z := 15.
End syscall.

(** ** Machine integers *)

(** Go's fixed-width integers, as [Z] with the wrap-around written out. *)
Definition wrap_unsigned (bits : Z) (z : Z) : Z := z mod 2 ^ bits.

Definition wrap_signed (bits : Z) (z : Z) : Z :=
  (z + 2 ^ (bits - 1)) mod 2 ^ bits - 2 ^ (bits - 1).

Definition uint32 : Z -> Z := wrap_unsigned 32.
Definition int32 : Z -> Z := wrap_signed 32.
(** [uint] on the 64-bit targets the xorg build runs on. *)
Definition uint : Z -> Z := wrap_unsigned 64.

(** ** time.Ticker

    [time.NewTicker] panics on a non-positive period.  While the ticker is
    running, an expiry of its timer makes one tick available on the channel
    [C]; a tick that is not received before the next expiry is not queued a
    second time.  [Stop] turns the timer off and, as the package guarantees
    since Go 1.23, no tick prepared before the call is received after it
    (runtimes before 1.23 left such a tick in the channel's buffer). *)
Record Ticker : Type := mkTicker {
  period : Z;       (* nanoseconds *)
  stopped : bool;
  pending : bool    (* a tick is ready to be received from C *)
}.

(** ** The render loop object *)

Inductive Chan : Type := pauseCh | terminateCh.

Record renderLoop : Type := mkRenderLoop {
  ticker : Ticker;
  pause : Chan;
  terminate : Chan
}.

(** ** Calls into the outside world *)

(** The display, surface and context of package platform. *)
Inductive Handle : Type := platform_Display | platform_Surface | platform_Context.

(** The handler value [main] installs: the address of the package variable
    [signal], of type [sigterm], whose only method is [HandleSignal]. *)
Inductive SignalHandler : Type := addr_signal.

(** Calls whose result the program does not use. *)
Inductive Command : Type :=
| glShaderSource (shader count : Z) (src : string)
| glCompileShader (shader : Z)
| glAttachShader (program shader : Z)
| glLinkProgram (program : Z)
| glUseProgram (program : Z)
| glBindBuffer (target buffer : Z)
| glBufferData (target size : Z) (data : list Q) (usage : Z)
| glEnableVertexAttribArray (index : Z)
| glClearColor (r g b a : Q)
| glViewport (x y width height : Z)
| glClear (mask : Z)
| glVertexAttribPointer (index size type : Z) (normalized : bool) (stride offset : Z)
| glDrawArrays (mode first count : Z)
| glFlush
| glFinish
| eglSwapBuffers (dpy surface : Handle)
| eglDestroySurface (dpy surface : Handle)
| eglDestroyContext (dpy ctx : Handle)
| eglTerminate (dpy : Handle)
| mousebind_Initialize
| go_xevent_Main
| xorg_Initialize (window : Z)
| runtime_LockOSThread
| log_Printf (line : string)
| log_Fatal (err : string)
| ticker_Stop
| chan_send (ch : Chan) (v : Z)
| application_Register (name : string) (loop : renderLoop)
| application_InstallSignalHandler (h : SignalHandler)
| application_Run
| application_Exit
| recv_exitCh.

(** Calls that hand an integer back.  [newWindow] is a function of the
    package whose file is not among the sources at hand; all [initialize]
    uses of it is the identifier of the window it returns. *)
Inductive Query : Type :=
| glGetError
| glCreateShader (type : Z)
| glGetShaderiv (shader pname : Z)
| glCreateProgram
| glGetProgramiv (program pname : Z)
| glGetAttribLocation (program : Z) (name : string)
| glGenBuffers (n : Z)
| newWindow (width height : Z).

(** Calls that hand a string back. *)
Inductive QueryS : Type :=
| glGetString (name : Z)
| glGetShaderInfoLog (shader bufsize : Z)
| glGetProgramInfoLog (program bufsize : Z).

(** The Go type of the integer a query returns. *)
Definition convert (q : Query) : Z -> Z :=
  match q with
  | glGetShaderiv _ _ | glGetProgramiv _ _ | glGetAttribLocation _ _ => int32
  | _ => uint32
  end.

Inductive Event : Type :=
| Did (c : Command)
| Asked (q : Query) (r : Z)
| AskedS (q : QueryS) (r : string)
| NewConn (err : option string).

(** The outside world: any state machine that reacts to commands and answers
    queries.  [xgbutil_NewConn] answers [None] when the connection was made
    and [Some err] otherwise. *)
Class Driver (D : Type) : Type := {
  perform : Command -> D -> D;
  answer : Query -> D -> Z * D;
  answerS : QueryS -> D -> string * D;
  xgbutil_NewConn : D -> option string * D
}.

(** ** Program state and the monad of effects *)

(** The package-level variables the functions write. *)
Record Globals : Type := mkGlobals {
  verticesArrayBuffer : Z;
  colorsArrayBuffer : Z;
  attrPos : Z;
  attrColor : Z;
  currWidth : Z;
  currHeight : Z
}.

Definition zero_globals : Globals := mkGlobals 0 0 0 0 0 0.

Inductive Outcome (A : Type) : Type :=
| Ok (a : A)
| Panic (msg : string)
| Exit (code : Z).
Arguments Panic {A} msg.
Arguments Exit {A} code.

Section Effects.
Context {D : Type} `{Driver D}.

Record State : Type := mkState {
  drv : D;
  globals : Globals
}.

Record Result (A : Type) : Type := mkResult {
  outcome : Outcome A;
  final : State;
  emitted : list Event
}.

Definition M (A : Type) : Type := State -> Result A.

Definition ret {A} (a : A) : M A := fun s => mkResult (Ok a) s [].

Definition bind {A B} (m : M A) (k : A -> M B) : M B := fun s =>
  match m s with
  | mkResult (Ok a) s1 e1 =>
      match k a s1 with
      | mkResult o s2 e2 => mkResult o s2 (e1 ++ e2)
      end
  | mkResult (Panic msg) s1 e1 => mkResult (Panic msg) s1 e1
  | mkResult (Exit code) s1 e1 => mkResult (Exit code) s1 e1
  end.

Definition panic {A} (msg : string) : M A := fun s => mkResult (Panic msg) s [].

Definition lift {A} (o : Outcome A) : M A := fun s => mkResult o s [].

Definition call (c : Command) : M unit := fun s =>
  mkResult (Ok tt) (mkState (perform c (drv s)) (globals s)) [Did c].

Definition ask (q : Query) : M Z := fun s =>
  let a := answer q (drv s) in
  let r := convert q (fst a) in
  mkResult (Ok r) (mkState (snd a) (globals s)) [Asked q r].

Definition askS (q : QueryS) : M string := fun s =>
  let a := answerS q (drv s) in
  mkResult (Ok (fst a)) (mkState (snd a) (globals s)) [AskedS q (fst a)].

Definition get : M Globals := fun s => mkResult (Ok (globals s)) s [].

Definition modify (f : Globals -> Globals) : M unit := fun s =>
  mkResult (Ok tt) (mkState (drv s) (f (globals s))) [].
End Effects.

Arguments State D : clear implicits.
Arguments Result D A : clear implicits.
Arguments M D A : clear implicits.

Declare Scope go_scope.
Delimit Scope go_scope with go.
Notation "x <- m ;; k" := (bind m (fun x => k))
  (at level 61, m at next level, right associativity) : go_scope.
Notation "m ;; k" := (bind m (fun _ => k))
  (at level 61, right associativity) : go_scope.
Local Open Scope go_scope.

(** Setters for the package-level variables. *)
Definition set_verticesArrayBuffer (v : Z) (g : Globals) : Globals :=
  mkGlobals v (colorsArrayBuffer g) (attrPos g) (attrColor g) (currWidth g) (currHeight g).
Definition set_colorsArrayBuffer (v : Z) (g : Globals) : Globals :=
  mkGlobals (verticesArrayBuffer g) v (attrPos g) (attrColor g) (currWidth g) (currHeight g).
Definition set_attrPos (v : Z) (g : Globals) : Globals :=
  mkGlobals (verticesArrayBuffer g) (colorsArrayBuffer g) v (attrColor g) (currWidth g) (currHeight g).
Definition set_attrColor (v : Z) (g : Globals) : Globals :=
  mkGlobals (verticesArrayBuffer g) (colorsArrayBuffer g) (attrPos g) v (currWidth g) (currHeight g).
Definition set_size (w h : Z) (g : Globals) : Globals :=
  mkGlobals (verticesArrayBuffer g) (colorsArrayBuffer g) (attrPos g) (attrColor g) w h.

(** ** time: tickers *)

Definition time_NewTicker (d : Z) : Outcome Ticker :=
  if (d <=? 0)%Z then Panic "non-positive interval for NewTicker"
  else Ok (mkTicker d false false).

Definition Ticker_Stop (t : Ticker) : Ticker :=
  mkTicker (period t) true false.

(** The runtime timer of a ticker expires. *)
Definition timer_fires (t : Ticker) : Ticker :=
  if stopped t then t else mkTicker (period t) (stopped t) true.

(** A receive from [t.C], possible only when a tick is ready. *)
Definition recv_C (t : Ticker) : option Ticker :=
  if pending t then Some (mkTicker (period t) (stopped t) false) else None.

Definition with_ticker (l : renderLoop) (t : Ticker) : renderLoop :=
  mkRenderLoop t (pause l) (terminate l).

(** ** Program text *)

Definition INITIAL_WINDOW_WIDTH : Z := 640.
Definition INITIAL_WINDOW_HEIGHT : Z := 480.
Definition FRAMES_PER_SECOND : Z := 24.

Definition vertices : list Q :=
  [ -1#2; -1#2; 0; 1;
     1#2; -1#2; 0; 1;
     0;    1#2; 0; 1 ]%Q.

Definition colors : list Q :=
  [ 1; 0; 0; 1;
    0; 1; 0; 1;
    0; 0; 1; 1 ]%Q.

Definition tab : string := String (ascii_of_nat 9) "".
Definition nl : string := String (ascii_of_nat 10) "".

Definition fsh : string :=
  nl ++
  tab ++ "varying lowp vec4 v_color;" ++ nl ++
  nl ++
  tab ++ "void main() {" ++ nl ++
  tab ++ tab ++ "gl_FragColor = v_color;" ++ nl ++
  tab ++ "}" ++ nl.

Definition vsh : string :=
  nl ++
  "        attribute vec4 pos;" ++ nl ++
  "        attribute vec4 color;" ++ nl ++
  "        varying lowp vec4 v_color;" ++ nl ++
  nl ++
  "        void main() {" ++ nl ++
  "          gl_Position = pos;" ++ nl ++
  "          v_color = color;" ++ nl ++
  "        }" ++ nl.

(** The dynamic type of an [os.Signal] value: a [syscall.Signal] number, or
    some other implementation of the interface. *)
Inductive os_Signal : Type :=
| syscall_Signal (ss : Z)
| other_Signal (description : string).

(** The ready case a [select] of [Run] picked. *)
Inductive SelectCase : Type := RecvPause | RecvTerminate | RecvTick.

(** What happens around the loop: the ticker's timer expires, or the
    [select] statement receives value [v] on the channel of case [c]. *)
Inductive Input : Type :=
| TimerFires
| Ready (c : SelectCase) (v : Z).

Section Program.
Context {D : Type} `{Driver D}.

(** *** init.go *)

Definition initialize : M D unit := fun s =>
  let c := xgbutil_NewConn (drv s) in
  match fst c with
  | Some err =>
      mkResult (Exit 1) (mkState (perform (log_Fatal err) (snd c)) (globals s))
               [NewConn (Some err); Did (log_Fatal err)]
  | None =>
      match
        (call mousebind_Initialize ;;
         xWindow <- ask (newWindow INITIAL_WINDOW_WIDTH INITIAL_WINDOW_HEIGHT) ;;
         call go_xevent_Main ;;
         call (xorg_Initialize xWindow)) (mkState (snd c) (globals s))
      with
      | mkResult o s' e => mkResult o s' (NewConn None :: e)
      end
  end.

(** *** the main file *)

Definition HandleSignal (s : os_Signal) : M D unit :=
  match s with
  | syscall_Signal ss =>
      if ((ss =? syscall.SIGTERM) || (ss =? syscall.SIGINT))%Z
      then call application_Exit
      else ret tt
  | other_Signal _ => ret tt
  end.

Definition newRenderLoop (fps : Z) : Outcome renderLoop :=
  if (fps =? 0)%Z then Panic "runtime error: integer divide by zero"
  else
    match time_NewTicker (Z.quot 1000000000 fps) with
    | Ok t => Ok (mkRenderLoop t pauseCh terminateCh)
    | Panic msg => Panic msg
    | Exit code => Exit code
    end.

Definition Pause (l : renderLoop) : Chan := pause l.

Definition Terminate (l : renderLoop) : Chan := terminate l.

Definition check : M D unit :=
  error <- ask glGetError ;;
  if (error =? 0)%Z then ret tt
  else panic ("An error occurred! Code: " ++ HexString.of_Z error).

(** *** shader.go *)

Definition FragmentShader (s : string) : M D Z :=
  shader <- ask (glCreateShader gl.FRAGMENT_SHADER) ;;
  check ;;
  call (glShaderSource shader 1 s) ;;
  check ;;
  call (glCompileShader shader) ;;
  check ;;
  stat <- ask (glGetShaderiv shader gl.COMPILE_STATUS) ;;
  (if (stat =? 0)%Z
   then _log <- askS (glGetShaderInfoLog shader 1000) ;; ret tt
   else ret tt) ;;
  ret shader.

Definition VertexShader (s : string) : M D Z :=
  shader <- ask (glCreateShader gl.VERTEX_SHADER) ;;
  call (glShaderSource shader 1 s) ;;
  call (glCompileShader shader) ;;
  stat <- ask (glGetShaderiv shader gl.COMPILE_STATUS) ;;
  (if (stat =? 0)%Z
   then _log <- askS (glGetShaderInfoLog shader 1000) ;; ret tt
   else ret tt) ;;
  ret shader.

Definition Program (fsh vsh : Z) : M D Z :=
  p <- ask glCreateProgram ;;
  call (glAttachShader p fsh) ;;
  call (glAttachShader p vsh) ;;
  call (glLinkProgram p) ;;
  stat <- ask (glGetProgramiv p gl.LINK_STATUS) ;;
  (if (stat =? 0)%Z
   then _log <- askS (glGetProgramInfoLog p 1000) ;; ret tt
   else ret tt) ;;
  ret p.

(** *** the main file, continued *)

Definition initShaders : M D unit :=
  f <- FragmentShader fsh ;;
  v <- VertexShader vsh ;;
  program <- Program f v ;;
  call (glUseProgram program) ;;
  pos <- ask (glGetAttribLocation program "pos") ;;
  modify (set_attrPos (uint pos)) ;;
  color <- ask (glGetAttribLocation program "color") ;;
  modify (set_attrColor (uint color)) ;;
  vb <- ask (glGenBuffers 1) ;;
  modify (set_verticesArrayBuffer vb) ;;
  call (glBindBuffer gl.ARRAY_BUFFER vb) ;;
  call (glBufferData gl.ARRAY_BUFFER (Z.of_nat (List.length vertices) * 4) vertices gl.STATIC_DRAW) ;;
  cb <- ask (glGenBuffers 1) ;;
  modify (set_colorsArrayBuffer cb) ;;
  call (glBindBuffer gl.ARRAY_BUFFER cb) ;;
  call (glBufferData gl.ARRAY_BUFFER (Z.of_nat (List.length colors) * 4) colors gl.STATIC_DRAW) ;;
  g <- get ;;
  call (glEnableVertexAttribArray (attrPos g)) ;;
  call (glEnableVertexAttribArray (attrColor g)) ;;
  call (glClearColor 0 0 0 1).

Definition draw (width height : Z) : M D unit :=
  call (glViewport 0 0 width height) ;;
  call (glClear (Z.lor gl.COLOR_BUFFER_BIT gl.DEPTH_BUFFER_BIT)) ;;
  g <- get ;;
  call (glBindBuffer gl.ARRAY_BUFFER (verticesArrayBuffer g)) ;;
  call (glVertexAttribPointer (attrPos g) 4 gl.FLOAT false 0 0) ;;
  call (glBindBuffer gl.ARRAY_BUFFER (colorsArrayBuffer g)) ;;
  call (glVertexAttribPointer (attrColor g) 4 gl.FLOAT false 0 0) ;;
  call (glDrawArrays gl.TRIANGLES 0 3) ;;
  call glFlush ;;
  call glFinish.

Definition cleanup : M D unit :=
  call (eglDestroySurface platform_Display platform_Surface) ;;
  call (eglDestroyContext platform_Display platform_Context) ;;
  call (eglTerminate platform_Display).

Definition reshape (width height : Z) : M D unit :=
  modify (set_size width height) ;;
  call (glViewport 0 0 width height).

Definition printInfo : M D unit :=
  r <- askS (glGetString gl.RENDERER) ;;
  call (log_Printf ("GL_RENDERER   = " ++ r ++ nl)) ;;
  v <- askS (glGetString gl.VERSION) ;;
  call (log_Printf ("GL_VERSION    = " ++ v ++ nl)) ;;
  d <- askS (glGetString gl.VENDOR) ;;
  call (log_Printf ("GL_VENDOR     = " ++ d ++ nl)) ;;
  e <- askS (glGetString gl.EXTENSIONS) ;;
  call (log_Printf ("GL_EXTENSIONS = " ++ e ++ nl)).

(** [info] is the value of the [-info] flag after [flag.Parse]. *)
Definition main (info : bool) : M D unit :=
  (if info then printInfo else ret tt) ;;
  l <- lift (newRenderLoop FRAMES_PER_SECOND) ;;
  call (application_Register "render loop" l) ;;
  call (application_InstallSignalHandler addr_signal) ;;
  call application_Run ;;
  call recv_exitCh.

(** *** renderLoop.Run *)

(** The statements of [Run] before the [for]. *)
Definition Run_setup : M D unit :=
  call runtime_LockOSThread ;;
  initialize ;;
  reshape INITIAL_WINDOW_WIDTH INITIAL_WINDOW_HEIGHT ;;
  initShaders.

(** The body of the [select] case [c]; the receiver [l] is passed through
    because [Stop] changes its ticker. *)
Definition Run_case (c : SelectCase) (l : renderLoop) : M D renderLoop :=
  match c with
  | RecvPause =>
      call ticker_Stop ;;
      call (chan_send (pause l) 0) ;;
      ret (with_ticker l (Ticker_Stop (ticker l)))
  | RecvTerminate =>
      cleanup ;;
      call (chan_send (terminate l) 0) ;;
      ret l
  | RecvTick =>
      g <- get ;;
      draw (currWidth g) (currHeight g) ;;
      call (eglSwapBuffers platform_Display platform_Surface) ;;
      ret l
  end.

(** One input to the loop.  [None]: the input cannot happen in this state
    (no tick is buffered, so the tick case is not ready). *)
Definition Run_step (i : Input) (l : renderLoop) : option (M D renderLoop) :=
  match i with
  | TimerFires => Some (ret (with_ticker l (timer_fires (ticker l))))
  | Ready RecvTick _ =>
      match recv_C (ticker l) with
      | Some t => Some (Run_case RecvTick (with_ticker l t))
      | None => None
      end
  | Ready c _ => Some (Run_case c l)
  end.

(** The [for] of [Run] fed with a list of inputs.  The loop has no exit: an
    [Ok] outcome means the inputs are used up and the loop is back at its
    [select]. *)
Fixpoint Run_loop (ins : list Input) (l : renderLoop) (s : State D)
  : option (Result D renderLoop) :=
  match ins with
  | [] => Some (ret l s)
  | i :: ins' =>
      match Run_step i l with
      | None => None
      | Some m =>
          match m s with
          | mkResult (Ok l') s1 e1 =>
              match Run_loop ins' l' s1 with
              | Some (mkResult o s2 e2) => Some (mkResult o s2 (e1 ++ e2))
              | None => None
              end
          | r => Some r
          end
      end
  end.

Definition Run (l : renderLoop) (ins : list Input) (s : State D)
  : option (Result D renderLoop) :=
  match Run_setup s with
  | mkResult (Ok _) s1 e1 =>
      match Run_loop ins l s1 with
      | Some (mkResult o s2 e2) => Some (mkResult o s2 (e1 ++ e2))
      | None => None
      end
  | mkResult (Panic msg) s1 e1 => Some (mkResult (Panic msg) s1 e1)
  | mkResult (Exit code) s1 e1 => Some (mkResult (Exit code) s1 e1)
  end.

End Program.

(** ** Observations on event lists *)

Definition is_draw (e : Event) : bool :=
  match e with Did (glDrawArrays _ _ _) => true | _ => false end.

Definition is_swap (e : Event) : bool :=
  match e with Did (eglSwapBuffers _ _) => true | _ => false end.

Definition is_print (e : Event) : bool :=
  match e with Did (log_Printf _) => true | _ => false end.

Definition is_info_log (e : Event) : bool :=
  match e with
  | AskedS (glGetShaderInfoLog _ _) _ | AskedS (glGetProgramInfoLog _ _) _ => true
  | _ => false
  end.

Definition is_ticker_stop (e : Event) : bool :=
  match e with Did ticker_Stop => true | _ => false end.

Definition count (f : Event -> bool) (tr : list Event) : nat :=
  List.length (filter f tr).

(** The status words a run asked for: parameter name and value read back. *)
Definition status_queries (tr : list Event) : list (Z * Z) :=
  flat_map (fun e =>
    match e with
    | Asked (glGetShaderiv _ pname) r | Asked (glGetProgramiv _ pname) r => [(pname, r)]
    | _ => []
    end) tr.

(** The error codes a run read with [gl.GetError]. *)
Definition error_codes (tr : list Event) : list Z :=
  flat_map (fun e => match e with Asked glGetError r => [r] | _ => [] end) tr.

Definition b2n (b : bool) : nat := if b then 1%nat else 0%nat.

(** ** Observations on inputs and further observations on events *)

Definition is_fire (i : Input) : bool :=
  match i with TimerFires => true | _ => false end.

Definition is_pause_request (i : Input) : bool :=
  match i with Ready RecvPause _ => true | _ => false end.

Definition is_terminate_request (i : Input) : bool :=
  match i with Ready RecvTerminate _ => true | _ => false end.

Definition is_tick_received (i : Input) : bool :=
  match i with Ready RecvTick _ => true | _ => false end.

Definition inputs (f : Input -> bool) (ins : list Input) : nat :=
  List.length (filter f ins).

Definition is_get_error (e : Event) : bool :=
  match e with Asked glGetError _ => true | _ => false end.

Definition is_destroy_surface (e : Event) : bool :=
  match e with Did (eglDestroySurface _ _) => true | _ => false end.

Definition is_destroy_context (e : Event) : bool :=
  match e with Did (eglDestroyContext _ _) => true | _ => false end.

Definition is_egl_terminate (e : Event) : bool :=
  match e with Did (eglTerminate _) => true | _ => false end.

(** A send of 0 on some channel of the loop. *)
Definition is_send_0 (e : Event) : bool :=
  match e with Did (chan_send _ v) => (v =? 0)%Z | _ => false end.

Definition is_send (e : Event) : bool :=
  match e with Did (chan_send _ _) => true | _ => false end.

Definition is_use_program (e : Event) : bool :=
  match e with Did (glUseProgram _) => true | _ => false end.

(** Calls into OpenGL ES and EGL: the ones that need the display, surface
    and context [xorg.Initialize] sets up. *)
Definition is_graphics (e : Event) : bool :=
  match e with
  | Did (glShaderSource _ _ _) | Did (glCompileShader _) | Did (glAttachShader _ _)
  | Did (glLinkProgram _) | Did (glUseProgram _) | Did (glBindBuffer _ _)
  | Did (glBufferData _ _ _ _) | Did (glEnableVertexAttribArray _)
  | Did (glClearColor _ _ _ _) | Did (glViewport _ _ _ _) | Did (glClear _)
  | Did (glVertexAttribPointer _ _ _ _ _ _) | Did (glDrawArrays _ _ _)
  | Did glFlush | Did glFinish
  | Did (eglSwapBuffers _ _) | Did (eglDestroySurface _ _)
  | Did (eglDestroyContext _ _) | Did (eglTerminate _) => true
  | Asked (newWindow _ _) _ => false
  | Asked _ _ => true
  | AskedS _ _ => true
  | _ => false
  end.

Definition size_is (w h : Z) (g : Globals) : Prop :=
  currWidth g = w /\ currHeight g = h.

(** The events with which the loop serves a request: stopping the ticker,
    the calls of [cleanup], and the sends on its channels. *)
Definition is_request_event (e : Event) : bool :=
  is_ticker_stop e || is_destroy_surface e || is_destroy_context e
  || is_egl_terminate e || is_send e.

(** The events of [draw] when the package variables are [g]. *)
Definition frame (g : Globals) : list Event :=
  [ Did (glViewport 0 0 (currWidth g) (currHeight g));
    Did (glClear (Z.lor gl.COLOR_BUFFER_BIT gl.DEPTH_BUFFER_BIT));
    Did (glBindBuffer gl.ARRAY_BUFFER (verticesArrayBuffer g));
    Did (glVertexAttribPointer (attrPos g) 4 gl.FLOAT false 0 0);
    Did (glBindBuffer gl.ARRAY_BUFFER (colorsArrayBuffer g));
    Did (glVertexAttribPointer (attrColor g) 4 gl.FLOAT false 0 0);
    Did (glDrawArrays gl.TRIANGLES 0 3);
    Did glFlush;
    Did glFinish ].

(** The events of [cleanup]. *)
Definition teardown : list Event :=
  [ Did (eglDestroySurface platform_Display platform_Surface);
    Did (eglDestroyContext platform_Display platform_Context);
    Did (eglTerminate platform_Display) ].

(** [block] is what the loop [l] does in answer to the input [i]: nothing
    for an expiry of the timer; [Stop] and then 0 on the pause channel for
    a pause request; the calls of [cleanup], in order, and then 0 on the
    terminate channel for a terminate request; for a tick a frame, that is
    events with one draw call, ending in the buffer swap, and none of them
    part of the answer to a request. *)
Definition answers (l : renderLoop) (i : Input) (block : list Event) : Prop :=
  match i with
  | TimerFires => block = []
  | Ready RecvPause _ =>
      block = [Did ticker_Stop; Did (chan_send (pause l) 0)]
  | Ready RecvTerminate _ =>
      block = (teardown ++ [Did (chan_send (terminate l) 0)])%list
  | Ready RecvTick _ =>
      Forall (fun e => is_request_event e = false) block /\
      count is_draw block = 1%nat /\
      last block (Did glFlush) = Did (eglSwapBuffers platform_Display platform_Surface)
  end.

Section Invariants.
Context {D : Type} `{Driver D}.

(** [m] keeps the property [P] of the package variables, whatever its
    outcome, and emits only events that satisfy [Q]. *)
Definition keeps {A} (P : Globals -> Prop) (Q : Event -> Prop) (m : M D A) : Prop :=
  forall s, P (globals s) ->
    Forall Q (emitted (m s)) /\ P (globals (final (m s))).

End Invariants.

(** ** A scripted driver

    A concrete outside world for running the program: integer and string
    answers are read off two scripts (0 and the empty string when a script
    is used up), commands are ignored, and the X connection fails with
    [conn_err] when that is set. *)
Record Script : Type := mkScript {
  ints : list Z;
  strs : list string;
  conn_err : option string
}.

#[export] Instance scripted : Driver Script := {
  perform := fun _ d => d;
  answer := fun _ d =>
    match ints d with
    | [] => (0, d)
    | x :: xs => (x, mkScript xs (strs d) (conn_err d))
    end;
  answerS := fun _ d =>
    match strs d with
    | [] => ("", d)
    | x :: xs => (x, mkScript (ints d) xs (conn_err d))
    end;
  xgbutil_NewConn := fun d => (conn_err d, d)
}.

Definition script_state (zs : list Z) (ss : list string) (e : option string)
  : State Script :=
  mkState (mkScript zs ss e) zero_globals.

(** The loop [main] registers, and some scripted states to run it in. *)
Definition loop24 : renderLoop :=
  mkRenderLoop (mkTicker 41666666 false false) pauseCh terminateCh.

(** Nothing scripted: every answer is 0 or the empty string. *)
Definition quiet : State Script := script_state [] [] None.

(** The X server cannot be reached. *)
Definition no_display : State Script :=
  script_state [] [] (Some "cannot open display").

(** [gl.CreateShader] answers 7, the first [gl.GetError] GL_INVALID_VALUE. *)
Definition invalid_value : State Script := script_state [7; 0x0501] [] None.

(** Everything succeeds: window 99, shaders 1 and 2, program 3, attribute
    locations 0 and 1, buffers 10 and 11. *)
Definition all_well : State Script :=
  script_state [99; 1; 0; 0; 0; gl.TRUE; 2; gl.TRUE; 3; gl.TRUE; 0; 1; 10; 11] [] None.

(** The shaders compile, the program (3) fails to link; attribute
    locations 0 and 1, buffers 10 and 11. *)
Definition link_failure : State Script :=
  script_state [1; 0; 0; 0; gl.TRUE; 2; gl.TRUE; 3; gl.FALSE; 0; 1; 10; 11]
               ["error: linking failed"] None.

(** Inputs that exercise every case of the loop, some more than once. *)
Definition busy : list Input :=
  [ TimerFires; Ready RecvTick 0; TimerFires; TimerFires; Ready RecvTick 0;
    Ready RecvPause 7; TimerFires; Ready RecvTerminate 1; Ready RecvPause 0;
    Ready RecvTerminate 0 ].

(** Shader 7 is created without errors and fails to compile. *)
Definition compile_failure : State Script :=
  script_state [7; 0; 0; 0; gl.FALSE] ["0:1: syntax error"] None.

(** ** Properties *)

Section Properties.
Context {D : Type} `{Driver D}.

(** *** check *)

(** C3.  [check] reads the error code with one [gl.GetError] call and panics
    if and only if that code is nonzero.  When the code is 0 it returns
    normally, the package variables are untouched and no other call is
    made. *)
Theorem check_panics_iff_error (s : State D) :
  let error := uint32 (fst (answer glGetError (drv s))) in
  let r := check s in
  emitted r = [Asked glGetError error] /\
  outcome r =
    (if (error =? 0)%Z then Ok tt
     else Panic ("An error occurred! Code: " ++ HexString.of_Z error)) /\
  ((exists msg, outcome r = Panic msg) <-> error <> 0) /\
  (outcome r = Ok tt <-> error = 0) /\
  globals (final r) = globals s /\
  drv (final r) = snd (answer glGetError (drv s)).
Proof.
  cbv zeta. unfold check, bind, ask. cbn.
  destruct (Z.eqb_spec (uint32 (fst (answer glGetError (drv s)))) 0) as [E | E];
    cbn; rewrite ?app_nil_r.
  - repeat split; auto.
    + intros [msg Hm]; discriminate.
    + intros Hn; contradiction.
  - repeat split; auto.
    + eexists; reflexivity.
    + discriminate.
    + intros E'; contradiction.
Qed.

(** *** shader.go: what a run of each constructor looks like *)

Ltac run_program :=
  unfold bind, ask, askS, call, ret, panic, get, modify, lift; cbn.

Ltac case_on_test :=
  match goal with
  | |- context [(?x =? 0)%Z] => destruct (Z.eqb_spec x 0)
  end; cbn.

Ltac same_events :=
  repeat (apply f_equal2; [reflexivity | ]);
  try match goal with
  | E : ?x = 0 |- context [(?x =? 0)%Z] => rewrite E
  | E : ?x <> 0 |- context [(?x =? 0)%Z] =>
      rewrite (proj2 (Z.eqb_neq x 0) E)
  end; cbn; rewrite ?app_nil_r; reflexivity.

Lemma VertexShader_run (src : string) (s : State D) :
  let r := VertexShader src s in
  exists shader stat lg,
    outcome r = Ok shader /\
    emitted r =
      Asked (glCreateShader gl.VERTEX_SHADER) shader ::
      Did (glShaderSource shader 1 src) ::
      Did (glCompileShader shader) ::
      Asked (glGetShaderiv shader gl.COMPILE_STATUS) stat ::
      (if (stat =? 0)%Z then [AskedS (glGetShaderInfoLog shader 1000) lg] else []) /\
    globals (final r) = globals s.
Proof.
  cbv zeta. unfold VertexShader. run_program. case_on_test.
  - do 3 eexists. split; [reflexivity | split; [same_events | reflexivity]].
  - exists (uint32 (fst (answer (glCreateShader gl.VERTEX_SHADER) (drv s)))).
    eexists. exists "".
    split; [reflexivity | split; [same_events | reflexivity]].
Qed.

Lemma Program_run (f v : Z) (s : State D) :
  let r := Program f v s in
  exists p stat lg,
    outcome r = Ok p /\
    emitted r =
      Asked glCreateProgram p ::
      Did (glAttachShader p f) ::
      Did (glAttachShader p v) ::
      Did (glLinkProgram p) ::
      Asked (glGetProgramiv p gl.LINK_STATUS) stat ::
      (if (stat =? 0)%Z then [AskedS (glGetProgramInfoLog p 1000) lg] else []) /\
    globals (final r) = globals s.
Proof.
  cbv zeta. unfold Program. run_program. case_on_test.
  - do 3 eexists. split; [reflexivity | split; [same_events | reflexivity]].
  - exists (uint32 (fst (answer glCreateProgram (drv s)))).
    eexists. exists "".
    split; [reflexivity | split; [same_events | reflexivity]].
Qed.

(** [FragmentShader] either gets past its three [check] calls, and then
    behaves like [VertexShader], or panics in one of them, before the
    compile status is asked for. *)
Lemma FragmentShader_run (src : string) (s : State D) :
  let r := FragmentShader src s in
  (exists shader stat lg,
     outcome r = Ok shader /\
     emitted r =
       Asked (glCreateShader gl.FRAGMENT_SHADER) shader ::
       Asked glGetError 0 ::
       Did (glShaderSource shader 1 src) ::
       Asked glGetError 0 ::
       Did (glCompileShader shader) ::
       Asked glGetError 0 ::
       Asked (glGetShaderiv shader gl.COMPILE_STATUS) stat ::
       (if (stat =? 0)%Z then [AskedS (glGetShaderInfoLog shader 1000) lg] else []) /\
     globals (final r) = globals s)
  \/
  (exists error before,
     error <> 0 /\
     outcome r = Panic ("An error occurred! Code: " ++ HexString.of_Z error) /\
     emitted r = (before ++ [Asked glGetError error])%list /\
     status_queries before = [] /\
     existsb is_info_log before = false /\
     globals (final r) = globals s).
Proof.
  cbv zeta. unfold FragmentShader, check. run_program.
  case_on_test; [ | right; eexists _, [_]; repeat split; [eassumption | .. ]; reflexivity ].
  case_on_test; [ | right; eexists _, [_; _; _]; repeat split; [eassumption | .. ]; try reflexivity;
                    cbn; repeat (apply f_equal2; [try reflexivity; congruence | ]); reflexivity ].
  case_on_test; [ | right; eexists _, [_; _; _; _; _]; repeat split; [eassumption | .. ]; try reflexivity;
                    cbn; repeat (apply f_equal2; [try reflexivity; congruence | ]); reflexivity ].
  left. case_on_test.
  - do 3 eexists. split; [reflexivity | split; [ | reflexivity]].
    repeat (apply f_equal2; [try reflexivity; congruence | ]).
    match goal with E : ?x = 0 |- context [(?x =? 0)%Z] => rewrite E end. reflexivity.
  - exists (uint32 (fst (answer (glCreateShader gl.FRAGMENT_SHADER) (drv s)))).
    eexists. exists "".
    split; [reflexivity | split; [ | reflexivity]].
    repeat (apply f_equal2; [try reflexivity; congruence | ]).
    match goal with E : ?x <> 0 |- context [(?x =? 0)%Z] =>
      rewrite (proj2 (Z.eqb_neq x 0) E) end. reflexivity.
Qed.

Lemma status_queries_app (a b : list Event) :
  status_queries (a ++ b) = (status_queries a ++ status_queries b)%list.
Proof. unfold status_queries. apply flat_map_app. Qed.

(** The runs of [FragmentShader], event by event: it gets through when the
    three error codes it reads are 0, and it panics in the first [check]
    that reads another code, with nothing done after that read. *)
Lemma FragmentShader_cases (src : string) (s : State D) :
  let r := FragmentShader src s in
  exists shader,
    (exists stat lg,
       outcome r = Ok shader /\
       emitted r =
        Asked (glCreateShader gl.FRAGMENT_SHADER) shader ::
        Asked glGetError 0 ::
        Did (glShaderSource shader 1 src) ::
        Asked glGetError 0 ::
        Did (glCompileShader shader) ::
        Asked glGetError 0 ::
        Asked (glGetShaderiv shader gl.COMPILE_STATUS) stat ::
        (if (stat =? gl.FALSE)%Z
         then [AskedS (glGetShaderInfoLog shader 1000) lg] else []) /\
       globals (final r) = globals s)
    \/
    (exists error,
       error <> 0 /\
       outcome r = Panic ("An error occurred! Code: " ++ HexString.of_Z error) /\
       globals (final r) = globals s /\
      (emitted r =
         [ Asked (glCreateShader gl.FRAGMENT_SHADER) shader;
           Asked glGetError error ]
       \/
       emitted r =
         [ Asked (glCreateShader gl.FRAGMENT_SHADER) shader;
           Asked glGetError 0;
           Did (glShaderSource shader 1 src);
           Asked glGetError error ]
       \/
       emitted r =
         [ Asked (glCreateShader gl.FRAGMENT_SHADER) shader;
           Asked glGetError 0;
           Did (glShaderSource shader 1 src);
           Asked glGetError 0;
           Did (glCompileShader shader);
           Asked glGetError error ])).
Proof.
  cbv zeta. unfold FragmentShader, check. run_program.
  exists (uint32 (fst (answer (glCreateShader gl.FRAGMENT_SHADER) (drv s)))).
  case_on_test;
    [ | right; eexists; split; [eassumption | ];
        split; [reflexivity | ]; split; [reflexivity | ];
        left; reflexivity ].
  case_on_test;
    [ | right; eexists; split; [eassumption | ];
        split; [reflexivity | ]; split; [reflexivity | ];
        right; left;
        repeat (apply f_equal2; [try reflexivity; congruence | ]); reflexivity ].
  case_on_test;
    [ | right; eexists; split; [eassumption | ];
        split; [reflexivity | ]; split; [reflexivity | ];
        right; right;
        repeat (apply f_equal2; [try reflexivity; congruence | ]); reflexivity ].
  left. unfold gl.FALSE. case_on_test.
  - do 2 eexists. split; [reflexivity | split; [ | reflexivity]].
    repeat (apply f_equal2; [try reflexivity; congruence | ]).
    match goal with E : ?x = 0 |- context [(?x =? 0)%Z] => rewrite E end. reflexivity.
  - eexists. exists "".
    split; [reflexivity | split; [ | reflexivity]].
    repeat (apply f_equal2; [try reflexivity; congruence | ]).
    match goal with E : ?x <> 0 |- context [(?x =? 0)%Z] =>
      rewrite (proj2 (Z.eqb_neq x 0) E) end. reflexivity.
Qed.

(** C8, as the code has it.  [VertexShader] and [Program] ask for exactly
    one status word, COMPILE_STATUS and LINK_STATUS, and retrieve the info
    log exactly when the word read back is GL_FALSE, the value the graphics
    API reports on failure.  [FragmentShader] does the same when the three
    error codes its [check] calls read are all 0; otherwise it panics in
    the first [check] that reads a nonzero code, and then no status was
    asked for and no info log retrieved. *)
Theorem status_checks_detect_failure (src : string) (f v : Z) (s : State D) :
  (let tr := emitted (VertexShader src s) in
   exists shader stat lg,
     tr =
       Asked (glCreateShader gl.VERTEX_SHADER) shader ::
       Did (glShaderSource shader 1 src) ::
       Did (glCompileShader shader) ::
       Asked (glGetShaderiv shader gl.COMPILE_STATUS) stat ::
       (if (stat =? gl.FALSE)%Z
        then [AskedS (glGetShaderInfoLog shader 1000) lg] else []) /\
     status_queries tr = [(gl.COMPILE_STATUS, stat)] /\
     (existsb is_info_log tr = true <-> stat = gl.FALSE)) /\
  (let tr := emitted (Program f v s) in
   exists p stat lg,
     tr =
       Asked glCreateProgram p ::
       Did (glAttachShader p f) ::
       Did (glAttachShader p v) ::
       Did (glLinkProgram p) ::
       Asked (glGetProgramiv p gl.LINK_STATUS) stat ::
       (if (stat =? gl.FALSE)%Z
        then [AskedS (glGetProgramInfoLog p 1000) lg] else []) /\
     status_queries tr = [(gl.LINK_STATUS, stat)] /\
     (existsb is_info_log tr = true <-> stat = gl.FALSE)) /\
  (let r := FragmentShader src s in
   exists shader,
     (exists stat lg,
        emitted r =
        Asked (glCreateShader gl.FRAGMENT_SHADER) shader ::
        Asked glGetError 0 ::
        Did (glShaderSource shader 1 src) ::
        Asked glGetError 0 ::
        Did (glCompileShader shader) ::
        Asked glGetError 0 ::
        Asked (glGetShaderiv shader gl.COMPILE_STATUS) stat ::
        (if (stat =? gl.FALSE)%Z
         then [AskedS (glGetShaderInfoLog shader 1000) lg] else []) /\
        status_queries (emitted r) = [(gl.COMPILE_STATUS, stat)] /\
        (existsb is_info_log (emitted r) = true <-> stat = gl.FALSE))
     \/
     (exists error,
        error <> 0 /\
        outcome r = Panic ("An error occurred! Code: " ++ HexString.of_Z error) /\
      (emitted r =
         [ Asked (glCreateShader gl.FRAGMENT_SHADER) shader;
           Asked glGetError error ]
       \/
       emitted r =
         [ Asked (glCreateShader gl.FRAGMENT_SHADER) shader;
           Asked glGetError 0;
           Did (glShaderSource shader 1 src);
           Asked glGetError error ]
       \/
       emitted r =
         [ Asked (glCreateShader gl.FRAGMENT_SHADER) shader;
           Asked glGetError 0;
           Did (glShaderSource shader 1 src);
           Asked glGetError 0;
           Did (glCompileShader shader);
           Asked glGetError error ]) /\
        status_queries (emitted r) = [] /\
        existsb is_info_log (emitted r) = false)).
Proof.
  assert (branch : forall stat : Z, (stat =? gl.FALSE)%Z = true <-> stat = gl.FALSE)
    by (intros stat; apply Z.eqb_eq).
  cbv zeta. split; [ | split ].
  - destruct (VertexShader_run src s) as (sh & stat & lg & _ & E & _).
    exists sh, stat, lg. split; [exact E | ]. rewrite E. cbn.
    rewrite <- branch. unfold gl.FALSE.
    destruct (stat =? 0)%Z; cbn; split; intuition congruence.
  - destruct (Program_run f v s) as (p & stat & lg & _ & E & _).
    exists p, stat, lg. split; [exact E | ]. rewrite E. cbn.
    rewrite <- branch. unfold gl.FALSE.
    destruct (stat =? 0)%Z; cbn; split; intuition congruence.
  - destruct (FragmentShader_cases src s)
      as (sh & [(stat & lg & _ & E & _) | (e & N & O & _ & E)]); exists sh.
    + left. exists stat, lg. split; [exact E | ]. rewrite E. cbn.
      rewrite <- branch.
      destruct (stat =? gl.FALSE)%Z; cbn; split; intuition congruence.
    + right. exists e. split; [exact N | ]. split; [exact O | ].
      split; [exact E | ].
      destruct E as [E | [E | E]]; rewrite E; split; reflexivity.
Qed.

(** C9, as the code has it.  [VertexShader] and [Program] return the handle
    they created for every source string and every status word: a failed
    compile or link neither aborts nor yields an error, and the info log,
    when retrieved, is the last thing that happens (it is neither printed
    nor stored).  [FragmentShader] does the same when the three error codes
    its [check] calls read are all 0; when one of them is not, it panics in
    that [check], before the compile status is asked for, and returns
    nothing. *)
Theorem constructors_return_handle (src : string) (f v : Z) (s : State D) :
  (let r := VertexShader src s in
   exists shader,
     hd_error (emitted r) = Some (Asked (glCreateShader gl.VERTEX_SHADER) shader) /\
     outcome r = Ok shader /\
     error_codes (emitted r) = [] /\
     count is_print (emitted r) = 0%nat /\
     globals (final r) = globals s) /\
  (let r := Program f v s in
   exists p,
     hd_error (emitted r) = Some (Asked glCreateProgram p) /\
     outcome r = Ok p /\
     error_codes (emitted r) = [] /\
     count is_print (emitted r) = 0%nat /\
     globals (final r) = globals s) /\
  (let r := FragmentShader src s in
   exists shader,
     (exists stat lg,
        outcome r = Ok shader /\
        emitted r =
        Asked (glCreateShader gl.FRAGMENT_SHADER) shader ::
        Asked glGetError 0 ::
        Did (glShaderSource shader 1 src) ::
        Asked glGetError 0 ::
        Did (glCompileShader shader) ::
        Asked glGetError 0 ::
        Asked (glGetShaderiv shader gl.COMPILE_STATUS) stat ::
        (if (stat =? gl.FALSE)%Z
         then [AskedS (glGetShaderInfoLog shader 1000) lg] else []) /\
        error_codes (emitted r) = [0; 0; 0] /\
        count is_print (emitted r) = 0%nat /\
        globals (final r) = globals s)
     \/
     (exists error,
        error <> 0 /\
        outcome r = Panic ("An error occurred! Code: " ++ HexString.of_Z error) /\
      (emitted r =
         [ Asked (glCreateShader gl.FRAGMENT_SHADER) shader;
           Asked glGetError error ]
       \/
       emitted r =
         [ Asked (glCreateShader gl.FRAGMENT_SHADER) shader;
           Asked glGetError 0;
           Did (glShaderSource shader 1 src);
           Asked glGetError error ]
       \/
       emitted r =
         [ Asked (glCreateShader gl.FRAGMENT_SHADER) shader;
           Asked glGetError 0;
           Did (glShaderSource shader 1 src);
           Asked glGetError 0;
           Did (glCompileShader shader);
           Asked glGetError error ]) /\
        last (error_codes (emitted r)) 0 = error /\
        status_queries (emitted r) = [] /\
        globals (final r) = globals s)).
Proof.
  cbv zeta. split; [ | split ].
  - destruct (VertexShader_run src s) as (sh & stat & lg & O & E & G).
    exists sh. rewrite E. repeat split; auto;
      destruct (stat =? 0)%Z; reflexivity.
  - destruct (Program_run f v s) as (p & stat & lg & O & E & G).
    exists p. rewrite E. repeat split; auto;
      destruct (stat =? 0)%Z; reflexivity.
  - destruct (FragmentShader_cases src s)
      as (sh & [(stat & lg & O & E & G) | (e & N & O & G & E)]); exists sh.
    + left. exists stat, lg. split; [exact O | ]. split; [exact E | ].
      rewrite E. repeat split; auto;
        destruct (stat =? gl.FALSE)%Z; reflexivity.
    + right. exists e. split; [exact N | ]. split; [exact O | ].
      split; [exact E | ].
      destruct E as [E | [E | E]]; rewrite E; repeat split; auto.
Qed.

(** *** Signals *)

(** C6.  [HandleSignal] calls [application.Exit], once, exactly when the
    signal is a [syscall.Signal] equal to SIGTERM or SIGINT; for every other
    signal value it makes no call and leaves the state as it was.  It is the
    handler [main] installs. *)
Theorem HandleSignal_exits_on_term_or_int (sig : os_Signal) (info : bool) (s : State D) :
  let r := HandleSignal sig s in
  let graceful :=
    sig = syscall_Signal syscall.SIGTERM \/ sig = syscall_Signal syscall.SIGINT in
  outcome r = Ok tt /\
  (emitted r = [Did application_Exit] <-> graceful) /\
  (emitted r = [] /\ final r = s <-> ~ graceful) /\
  globals (final r) = globals s /\
  In (Did (application_InstallSignalHandler addr_signal)) (emitted (main info s)).
Proof.
  cbv zeta. split; [ | split; [ | split; [ | split ] ] ].
  - destruct sig as [ss | d]; cbn; [ | reflexivity ].
    destruct ((ss =? syscall.SIGTERM)%Z || (ss =? syscall.SIGINT)%Z); reflexivity.
  - destruct sig as [ss | d]; cbn.
    + destruct (Z.eqb_spec ss syscall.SIGTERM) as [T | T];
        destruct (Z.eqb_spec ss syscall.SIGINT) as [I | I]; cbn;
        split; intros G; subst; auto; try discriminate;
        destruct G as [G | G]; inversion G; contradiction.
    + split; [discriminate | intros [G | G]; discriminate].
  - destruct sig as [ss | d]; cbn.
    + destruct (Z.eqb_spec ss syscall.SIGTERM) as [T | T];
        destruct (Z.eqb_spec ss syscall.SIGINT) as [I | I]; cbn;
        split; try (intros [G _]; discriminate); subst;
        try (intros G; exfalso; apply G; auto; fail).
      * intros _ [G | G]; inversion G; contradiction.
      * intros _. split; reflexivity.
    + split; [ intros _ [G | G]; discriminate | intros _; split; reflexivity ].
  - destruct sig as [ss | d]; cbn; [ | reflexivity ].
    destruct ((ss =? syscall.SIGTERM)%Z || (ss =? syscall.SIGINT)%Z); reflexivity.
  - unfold main, printInfo. run_program. destruct info; cbn; auto 20.
Qed.

(** *** Setup failure *)

(** C7.  When [xgbutil.NewConn] reports an error, [initialize] ends the
    process with [log.Fatal] (exit status 1) right away: the connection is
    attempted once, [log.Fatal] is the last call made, and whatever follows
    [initialize] in the program (in [Run]: [reshape], [initShaders] and the
    loop) is not executed. *)
Theorem initialize_fatal_on_connection_error
    (A : Type) (rest : unit -> M D A) (err : string) (s : State D) :
  fst (xgbutil_NewConn (drv s)) = Some err ->
  outcome (initialize s) = Exit 1 /\
  emitted (initialize s) = [NewConn (Some err); Did (log_Fatal err)] /\
  globals (final (initialize s)) = globals s /\
  outcome (bind initialize rest s) = Exit 1 /\
  emitted (bind initialize rest s) = [NewConn (Some err); Did (log_Fatal err)].
Proof.
  intros E. unfold bind, initialize. rewrite E. cbn. auto.
Qed.

(** *** The ticker of the loop *)

(** C4.  Whenever [newRenderLoop] returns a loop, its ticker is running
    with the period 1e9 / fps nanoseconds, integer quotient, and it does
    return one for every frame rate between 1 and 1e9.  With
    FRAMES_PER_SECOND = 24 the period is 41666666 ns, which fits 24 times,
    and not 25 times, into one second. *)
Theorem newRenderLoop_period (fps : Z) :
  (forall l, newRenderLoop fps = Ok l ->
     period (ticker l) = Z.quot 1000000000 fps /\ stopped (ticker l) = false) /\
  (1 <= fps <= 1000000000 ->
     newRenderLoop fps =
       Ok (mkRenderLoop (mkTicker (Z.quot 1000000000 fps) false false)
                        pauseCh terminateCh)) /\
  FRAMES_PER_SECOND = 24 /\
  newRenderLoop FRAMES_PER_SECOND =
    Ok (mkRenderLoop (mkTicker 41666666 false false) pauseCh terminateCh) /\
  24 * 41666666 <= 1000000000 < 25 * 41666666.
Proof.
  split; [ | split; [ | repeat split; try reflexivity; discriminate ] ].
  - intros l. unfold newRenderLoop, time_NewTicker.
    destruct (fps =? 0)%Z; [discriminate | ].
    destruct (Z.quot 1000000000 fps <=? 0)%Z; [discriminate | ].
    intros E. inversion E; subst. split; reflexivity.
  - intros R. unfold newRenderLoop, time_NewTicker.
    destruct (Z.eqb_spec fps 0) as [Z0 | _]; [lia | ].
    assert (Q : 1 <= Z.quot 1000000000 fps).
    { rewrite Z.quot_div_nonneg by lia.
      apply Z.div_le_lower_bound; lia. }
    destruct (Z.leb_spec (Z.quot 1000000000 fps) 0); [lia | reflexivity].
Qed.

(** *** main *)

(** C5.  [main] prints the renderer, version, vendor and extensions strings
    (the answers of [gl.GetString], in that order, one [log.Printf] each) if
    and only if the value of the [-info] flag is true, and every one of
    these calls comes before the render loop is registered and the
    application is run. *)
Theorem main_prints_info_first (info : bool) (s : State D) :
  exists renderer version vendor extensions l,
    newRenderLoop FRAMES_PER_SECOND = Ok l /\
    outcome (main info s) = Ok tt /\
    emitted (main info s) =
      ((if info then
          [ AskedS (glGetString gl.RENDERER) renderer;
            Did (log_Printf ("GL_RENDERER   = " ++ renderer ++ nl));
            AskedS (glGetString gl.VERSION) version;
            Did (log_Printf ("GL_VERSION    = " ++ version ++ nl));
            AskedS (glGetString gl.VENDOR) vendor;
            Did (log_Printf ("GL_VENDOR     = " ++ vendor ++ nl));
            AskedS (glGetString gl.EXTENSIONS) extensions;
            Did (log_Printf ("GL_EXTENSIONS = " ++ extensions ++ nl)) ]
        else []) ++
       [ Did (application_Register "render loop" l);
         Did (application_InstallSignalHandler addr_signal);
         Did application_Run;
         Did recv_exitCh ])%list /\
    (existsb is_print (emitted (main info s)) = true <-> info = true).
Proof.
  destruct info.
  - do 5 eexists. split; [reflexivity | ].
    split; [reflexivity | ]. split; [reflexivity | ].
    split; reflexivity.
  - exists "", "", "", "". eexists. split; [reflexivity | ].
    split; [reflexivity | ]. split; [reflexivity | ].
    split; discriminate.
Qed.

(** *** The loop of Run *)

(** What one pass through the [select] does, case by case. *)
Lemma Run_case_run (c : SelectCase) (l : renderLoop) (s : State D) :
  let r := Run_case c l s in
  let tick := match c with RecvTick => 1%nat | _ => 0%nat end in
  outcome r =
    Ok (match c with
        | RecvPause => with_ticker l (Ticker_Stop (ticker l))
        | _ => l
        end) /\
  count is_draw (emitted r) = tick /\
  count is_swap (emitted r) = tick /\
  globals (final r) = globals s.
Proof. destruct c; cbn; auto. Qed.

(** C2.  The [select] of [Run] has three cases, pause, terminate and tick,
    and a pass through the tick case is one call of [draw] on the current
    size followed by one [egl.SwapBuffers]: the events of [draw], which hold
    a single [gl.DrawArrays] and no swap, and then the swap.  The other two
    cases neither draw nor swap. *)
Theorem tick_draws_once_then_swaps (c : SelectCase) (l : renderLoop) (s : State D) :
  let r := Run_case c l s in
  let d := draw (currWidth (globals s)) (currHeight (globals s)) s in
  let tick := match c with RecvTick => 1%nat | _ => 0%nat end in
  (c = RecvPause \/ c = RecvTerminate \/ c = RecvTick) /\
  count is_draw (emitted r) = tick /\
  count is_swap (emitted r) = tick /\
  emitted (Run_case RecvTick l s) =
    (emitted d ++ [Did (eglSwapBuffers platform_Display platform_Surface)])%list /\
  count is_draw (emitted d) = 1%nat /\
  count is_swap (emitted d) = 0%nat /\
  outcome d = Ok tt.
Proof.
  cbv zeta. split; [destruct c; auto | ].
  destruct (Run_case_run c l s) as (_ & Dr & Sw & _).
  split; [exact Dr | ]. split; [exact Sw | ].
  repeat split; reflexivity.
Qed.

(** C1, what the code does.  The terminate case destroys the surface and
    the context, terminates the display and then sends 0 on the terminate
    channel; it makes no [Stop] call and returns the loop object with its
    ticker as it was.  With the ticker running, the loop therefore still
    serves the next tick: it draws and swaps after the display has been
    terminated. *)
Theorem terminate_leaves_ticker_running
    (v p : Z) (buffered : bool) (l : renderLoop) (s : State D) :
  let r := Run_case RecvTerminate l s in
  let running := with_ticker l (mkTicker p false buffered) in
  emitted r =
    [ Did (eglDestroySurface platform_Display platform_Surface);
      Did (eglDestroyContext platform_Display platform_Context);
      Did (eglTerminate platform_Display);
      Did (chan_send (terminate l) 0) ] /\
  outcome r = Ok l /\
  count is_ticker_stop (emitted r) = 0%nat /\
  exists r',
    Run_loop [Ready RecvTerminate v; TimerFires; Ready RecvTick v] running s = Some r' /\
    outcome r' = Ok (with_ticker l (mkTicker p false false)) /\
    count is_ticker_stop (emitted r') = 0%nat /\
    count is_draw (emitted r') = 1%nat /\
    count is_swap (emitted r') = 1%nat /\
    last (emitted r') (Did glFlush) = Did (eglSwapBuffers platform_Display platform_Surface).
Proof.
  cbv zeta. split; [reflexivity | ]. split; [reflexivity | ]. split; [reflexivity | ].
  unfold Run_loop, Run_step, recv_C, timer_fires. cbn.
  eexists. split; [reflexivity | ]. cbn. repeat split.
Qed.

(** A stopped ticker with no tick ready stays that way, and the loop neither
    draws nor swaps: the tick case of the [select] is never ready. *)
Lemma stopped_loop_is_idle (ins : list Input) :
  forall (l : renderLoop) (s : State D) (r : Result D renderLoop),
    stopped (ticker l) = true ->
    pending (ticker l) = false ->
    Run_loop ins l s = Some r ->
    exists l',
      outcome r = Ok l' /\
      stopped (ticker l') = true /\
      pending (ticker l') = false /\
      count is_draw (emitted r) = 0%nat /\
      count is_swap (emitted r) = 0%nat.
Proof.
  induction ins as [ | i ins IH]; intros l s r St Pe R.
  - inversion R; subst. exists l. cbn. repeat split; auto.
  - destruct i as [ | [ | | ] v]; cbn in R.
    + (* the timer of a stopped ticker does not send *)
      unfold timer_fires in R. rewrite St in R.
      destruct (Run_loop ins _ s) as [[o0 s0 e0] | ] eqn:R0; [ | discriminate ].
      inversion R; subst; clear R.
      apply IH in R0; [ | exact St | exact Pe ].
      destruct R0 as (l' & O & St' & Pe' & Dr & Sw). exists l'. auto.
    + (* pause again: Stop on a stopped ticker *)
      destruct (Run_loop ins _ _) as [[o0 s0 e0] | ] eqn:R0; [ | discriminate ].
      inversion R; subst; clear R.
      apply IH in R0; [ | reflexivity | reflexivity ].
      destruct R0 as (l' & O & St' & Pe' & Dr & Sw). exists l'. auto.
    + (* terminate *)
      destruct (Run_loop ins _ _) as [[o0 s0 e0] | ] eqn:R0; [ | discriminate ].
      inversion R; subst; clear R.
      apply IH in R0; [ | exact St | exact Pe ].
      destruct R0 as (l' & O & St' & Pe' & Dr & Sw). exists l'. auto.
    + (* no tick is ready, so the tick case cannot be taken *)
      unfold recv_C in R. rewrite Pe in R. discriminate.
Qed.

(** C10.  When the pause case is taken the ticker is stopped, and in every
    later state of the loop, whatever inputs follow, it is still stopped
    and no tick is ready: nothing restarts it.  From the pause on the loop
    makes no draw call and no buffer swap. *)
Theorem pause_is_permanent
    (v : Z) (ins : list Input) (l : renderLoop) (s : State D) (r : Result D renderLoop) :
  Run_loop (Ready RecvPause v :: ins) l s = Some r ->
  exists l',
    outcome r = Ok l' /\
    stopped (ticker l') = true /\
    pending (ticker l') = false /\
    count is_ticker_stop (emitted r) <> 0%nat /\
    count is_draw (emitted r) = 0%nat /\
    count is_swap (emitted r) = 0%nat.
Proof.
  intros R. cbn in R.
  destruct (Run_loop ins _ _) as [[o0 s0 e0] | ] eqn:R0; [ | discriminate ].
  inversion R; subst; clear R.
  apply stopped_loop_is_idle in R0; [ | reflexivity | reflexivity ].
  destruct R0 as (l' & O & St' & Pe' & Dr & Sw).
  unfold count in *. cbn in *. exists l'. repeat split; auto.
Qed.

End Properties.

(** ** The rest of the program *)

Section Coverage.
Context {D : Type} `{Driver D}.

(** *** newRenderLoop outside its range *)

(** [newRenderLoop] returns a loop exactly for the frame rates from 1 to
    1e9.  A rate of 0 is a division by zero; a negative rate or one above
    1e9 gives a period that is not positive, which [time.NewTicker]
    refuses. *)
Theorem newRenderLoop_defined_iff (fps : Z) :
  newRenderLoop fps =
    (if (fps =? 0)%Z then Panic "runtime error: integer divide by zero"
     else if ((fps <? 0) || (1000000000 <? fps))%Z
          then Panic "non-positive interval for NewTicker"
          else Ok (mkRenderLoop (mkTicker (Z.quot 1000000000 fps) false false)
                                pauseCh terminateCh)) /\
  ((exists l, newRenderLoop fps = Ok l) <-> 1 <= fps <= 1000000000) /\
  (forall code, newRenderLoop fps <> Exit code).
Proof.
  assert (E : newRenderLoop fps =
    (if (fps =? 0)%Z then Panic "runtime error: integer divide by zero"
     else if ((fps <? 0) || (1000000000 <? fps))%Z
          then Panic "non-positive interval for NewTicker"
          else Ok (mkRenderLoop (mkTicker (Z.quot 1000000000 fps) false false)
                                pauseCh terminateCh))).
  { unfold newRenderLoop, time_NewTicker.
    destruct (Z.eqb_spec fps 0) as [Z0 | N0]; [reflexivity | ].
    destruct (Z.ltb_spec fps 0) as [Neg | Pos]; cbn.
    - assert (Q : Z.quot 1000000000 fps <= 0).
      { rewrite <- (Z.opp_involutive fps), Z.quot_opp_r by lia.
        assert (0 <= Z.quot 1000000000 (- fps)) by (apply Z.quot_pos; lia). lia. }
      destruct (Z.leb_spec (Z.quot 1000000000 fps) 0); [reflexivity | lia].
    - rewrite Z.quot_div_nonneg by lia.
      destruct (Z.ltb_spec 1000000000 fps) as [Big | Small].
      + rewrite Z.div_small by lia. reflexivity.
      + assert (1 <= 1000000000 / fps) by (apply Z.div_le_lower_bound; lia).
        destruct (Z.leb_spec (1000000000 / fps) 0); [lia | reflexivity]. }
  split; [exact E | ]. rewrite E. split; [split | ].
  - intros [l L].
    destruct (Z.eqb_spec fps 0); [discriminate | ].
    destruct (Z.ltb_spec fps 0); [discriminate | ].
    destruct (Z.ltb_spec 1000000000 fps); [discriminate | ]. lia.
  - intros R.
    destruct (Z.eqb_spec fps 0); [lia | ].
    destruct (Z.ltb_spec fps 0); [lia | ].
    destruct (Z.ltb_spec 1000000000 fps); [lia | ]. eexists. reflexivity.
  - intros code.
    destruct (fps =? 0)%Z; [discriminate | ].
    destruct ((fps <? 0) || (1000000000 <? fps))%Z; discriminate.
Qed.

(** *** One input to the loop *)

(** What [Run_step] does with each input: the events, the ticker afterwards,
    and what stays as it was. *)
Lemma Run_step_run (i : Input) (l : renderLoop) (m : M D renderLoop) (s : State D) :
  Run_step i l = Some m ->
  exists l1 s1 e1,
    m s = mkResult (Ok l1) s1 e1 /\
    globals s1 = globals s /\
    pause l1 = pause l /\
    terminate l1 = terminate l /\
    period (ticker l1) = period (ticker l) /\
    match i with
    | TimerFires =>
        e1 = [] /\ ticker l1 = timer_fires (ticker l)
    | Ready RecvPause _ =>
        e1 = [Did ticker_Stop; Did (chan_send (pause l) 0)] /\
        ticker l1 = Ticker_Stop (ticker l)
    | Ready RecvTerminate _ =>
        e1 = (teardown ++ [Did (chan_send (terminate l) 0)])%list /\
        ticker l1 = ticker l
    | Ready RecvTick _ =>
        pending (ticker l) = true /\
        e1 = (frame (globals s) ++
              [Did (eglSwapBuffers platform_Display platform_Surface)])%list /\
        ticker l1 = mkTicker (period (ticker l)) (stopped (ticker l)) false
    end.
Proof.
  destruct i as [ | [ | | ] v]; cbn; intros E.
  - inversion E; subst. do 3 eexists. split; [reflexivity | ].
    cbn. unfold timer_fires. destruct (stopped (ticker l)); auto 10.
  - inversion E; subst. do 3 eexists. split; [reflexivity | ]. cbn. auto 10.
  - inversion E; subst. do 3 eexists. split; [reflexivity | ]. cbn. auto 10.
  - unfold recv_C in E. destruct (pending (ticker l)) eqn:P; [ | discriminate ].
    inversion E; subst. do 3 eexists. split; [reflexivity | ]. cbn. auto 10.
Qed.

(** A run of the loop on a non-empty input list is one step followed by a
    run on the rest. *)
Lemma Run_loop_cons (i : Input) (ins : list Input) (l : renderLoop)
    (s : State D) (r : Result D renderLoop) :
  Run_loop (i :: ins) l s = Some r ->
  exists m l1 s1 e1 r',
    Run_step i l = Some m /\
    m s = mkResult (Ok l1) s1 e1 /\
    Run_loop ins l1 s1 = Some r' /\
    r = mkResult (outcome r') (final r') (e1 ++ emitted r').
Proof.
  cbn. destruct (Run_step i l) as [m | ] eqn:St; [ | discriminate ].
  destruct (Run_step_run i l s St) as (l1 & s1 & e1 & E & _).
  rewrite E.
  destruct (Run_loop ins l1 s1) as [[o2 s2 e2] | ] eqn:R'; [ | discriminate ].
  intros R. inversion R; subst. do 5 eexists. repeat split; eauto.
Qed.

Lemma count_app (f : Event -> bool) (a b : list Event) :
  count f (a ++ b) = (count f a + count f b)%nat.
Proof. unfold count. rewrite filter_app. apply length_app. Qed.

(** Splits a run on [i :: ins] into its first step and the run on [ins],
    and brings the induction hypothesis [IH] to bear on the latter. *)
Ltac first_step IH R s :=
  let m := fresh "m" in
  let St := fresh "St" in
  let E := fresh "E" in
  let E' := fresh "E" in
  let R' := fresh "R" in
  apply Run_loop_cons in R;
  destruct R as (m & ?l1 & ?s1 & ?e1 & ?r' & St & E & R' & ->);
  destruct (Run_step_run _ _ s St) as (?l2 & ?s2 & ?e2 & E' & ?G & ?Pa & ?Te & ?Pe & ?Sh);
  rewrite E in E'; inversion E'; subst; clear E';
  specialize (IH _ _ _ R'); cbn [outcome final emitted].

(** *** The loop never gives up *)

(** No input makes the loop return, panic or exit, whatever the driver
    answers: it reads no error code, it leaves the package variables as they
    were, and the loop object keeps its channels and the period of its
    ticker. *)
Theorem Run_loop_never_aborts (ins : list Input) :
  forall (l : renderLoop) (s : State D) (r : Result D renderLoop),
    Run_loop ins l s = Some r ->
    exists l',
      outcome r = Ok l' /\
      globals (final r) = globals s /\
      pause l' = pause l /\
      terminate l' = terminate l /\
      period (ticker l') = period (ticker l) /\
      count is_get_error (emitted r) = 0%nat.
Proof.
  induction ins as [ | i ins IH]; intros l s r R.
  - inversion R; subst. exists l. cbn. auto 10.
  - first_step IH R s.
    destruct IH as (l' & O & G' & Pa' & Te' & Pe' & C).
    exists l'. rewrite count_app, C.
    repeat split; try congruence.
    destruct i as [ | [ | | ] v]; cbn in Sh;
      [ destruct Sh as (-> & _) | destruct Sh as (-> & _)
      | destruct Sh as (-> & _) | destruct Sh as (_ & -> & _) ]; reflexivity.
Qed.

(** *** Frames *)

(** In every run of the loop the number of frames drawn and the number of
    buffer swaps both equal the number of ticks received: no frame is drawn
    without being shown, and nothing but a tick draws. *)
Theorem Run_loop_frames (ins : list Input) :
  forall (l : renderLoop) (s : State D) (r : Result D renderLoop),
    Run_loop ins l s = Some r ->
    count is_draw (emitted r) = inputs is_tick_received ins /\
    count is_swap (emitted r) = inputs is_tick_received ins.
Proof.
  induction ins as [ | i ins IH]; intros l s r R.
  - inversion R; subst. split; reflexivity.
  - first_step IH R s. destruct IH as (Dr & Sw).
    rewrite !count_app, Dr, Sw.
    destruct i as [ | [ | | ] v]; cbn in Sh;
      [ destruct Sh as (-> & _) | destruct Sh as (-> & _)
      | destruct Sh as (-> & _) | destruct Sh as (_ & -> & _) ];
      split; reflexivity.
Qed.

(** The loop never draws more frames than the ticker delivered: the frames
    drawn, plus the tick still buffered at the end, are at most the expiries
    of the timer plus the tick buffered at the start. *)
Theorem Run_loop_frames_bounded (ins : list Input) :
  forall (l : renderLoop) (s : State D) (r : Result D renderLoop),
    Run_loop ins l s = Some r ->
    exists l',
      outcome r = Ok l' /\
      (count is_draw (emitted r) + b2n (pending (ticker l'))
       <= inputs is_fire ins + b2n (pending (ticker l)))%nat.
Proof.
  induction ins as [ | i ins IH]; intros l s r R.
  - inversion R; subst. exists l. cbn. split; [reflexivity | lia].
  - first_step IH R s. destruct IH as (l' & O & B).
    exists l'. split; [exact O | ]. rewrite count_app.
    destruct i as [ | [ | | ] v]; cbn in Sh.
    + destruct Sh as (-> & T). rewrite T in B. unfold timer_fires in B.
      change (inputs is_fire (TimerFires :: ins)) with (S (inputs is_fire ins)).
      destruct (stopped (ticker l)); cbn in *; [ | destruct (pending (ticker l)); cbn ]; lia.
    + destruct Sh as (-> & T). rewrite T in B. unfold inputs, count in *.
      cbn in *. lia.
    + destruct Sh as (-> & T). rewrite T in B. cbn in *. exact B.
    + destruct Sh as (P & -> & T). rewrite T in B. rewrite P. cbn in *.
      unfold inputs in *. cbn. lia.
Qed.

(** *** Requests *)

Lemma answers_same_channels (l l1 : renderLoop) (i : Input) (block : list Event) :
  pause l1 = pause l -> terminate l1 = terminate l ->
  answers l1 i block -> answers l i block.
Proof.
  intros Pa Te. destruct i as [ | [ | | ] v]; cbn; rewrite ?Pa, ?Te; auto.
Qed.

(** The events of a run of the loop are, input by input and in the order of
    the inputs, the loop's answers: a pause request is answered by
    [ticker.Stop] followed by a send of 0 on the pause channel, a terminate
    request by the three calls of [cleanup] in order followed by a send of 0
    on the terminate channel, also when the request is not the first; a
    tick is answered by a frame, in which no such event occurs, and an
    expiry of the timer by nothing.  So every request is acknowledged
    exactly once, on its own channel, after its work is done, and nothing
    else is ever sent. *)
Theorem Run_loop_acknowledges (ins : list Input) :
  forall (l : renderLoop) (s : State D) (r : Result D renderLoop),
    Run_loop ins l s = Some r ->
    (exists blocks,
       emitted r = List.concat blocks /\
       Forall2 (answers l) ins blocks) /\
    count is_ticker_stop (emitted r) = inputs is_pause_request ins /\
    count is_destroy_surface (emitted r) = inputs is_terminate_request ins /\
    count is_destroy_context (emitted r) = inputs is_terminate_request ins /\
    count is_egl_terminate (emitted r) = inputs is_terminate_request ins /\
    count is_send (emitted r) =
      (inputs is_pause_request ins + inputs is_terminate_request ins)%nat /\
    count is_send_0 (emitted r) = count is_send (emitted r).
Proof.
  induction ins as [ | i ins IH]; intros l s r R.
  - inversion R; subst. cbn. split; [exists []; split; [reflexivity | constructor] | ].
    auto 10.
  - first_step IH R s.
    destruct IH as ((blocks & Eb & Fb) & St' & DS & DC & ET & Se & S0).
    split.
    + exists (e2 :: blocks). split; [cbn; rewrite Eb; reflexivity | ].
      constructor.
      * destruct i as [ | [ | | ] v]; cbn in Sh; cbn;
          [ destruct Sh as (-> & _) | destruct Sh as (-> & _)
          | destruct Sh as (-> & _) | destruct Sh as (_ & -> & _) ];
          try reflexivity.
        split; [repeat constructor | split; reflexivity].
      * eapply Forall2_impl; [ | exact Fb ].
        intros a b. apply answers_same_channels; assumption.
    + rewrite !count_app, St', DS, DC, ET, S0, Se.
      destruct i as [ | [ | | ] v]; cbn in Sh;
        [ destruct Sh as (-> & _) | destruct Sh as (-> & _)
        | destruct Sh as (-> & _) | destruct Sh as (_ & -> & _) ];
        unfold inputs; cbn; repeat split; lia.
Qed.

(** *** Rules for [keeps] *)

Lemma keeps_ret {A} (P : Globals -> Prop) (Q : Event -> Prop) (a : A) :
  keeps P Q (ret (D := D) a).
Proof. intros s Ps. split; [constructor | exact Ps]. Qed.

Lemma keeps_panic {A} (P : Globals -> Prop) (Q : Event -> Prop) (msg : string) :
  keeps P Q (panic (D := D) (A := A) msg).
Proof. intros s Ps. split; [constructor | exact Ps]. Qed.

Lemma keeps_get (P : Globals -> Prop) (Q : Event -> Prop) :
  keeps P Q (get (D := D)).
Proof. intros s Ps. split; [constructor | exact Ps]. Qed.

Lemma keeps_call (P : Globals -> Prop) (Q : Event -> Prop) (c : Command) :
  Q (Did c) -> keeps P Q (call c).
Proof. intros Qc s Ps. split; [repeat constructor; exact Qc | exact Ps]. Qed.

Lemma keeps_ask (P : Globals -> Prop) (Q : Event -> Prop) (q : Query) :
  (forall r, Q (Asked q r)) -> keeps P Q (ask q).
Proof. intros Qq s Ps. split; [repeat constructor; apply Qq | exact Ps]. Qed.

Lemma keeps_askS (P : Globals -> Prop) (Q : Event -> Prop) (q : QueryS) :
  (forall r, Q (AskedS q r)) -> keeps P Q (askS q).
Proof. intros Qq s Ps. split; [repeat constructor; apply Qq | exact Ps]. Qed.

Lemma keeps_modify (P : Globals -> Prop) (Q : Event -> Prop) (f : Globals -> Globals) :
  (forall g, P g -> P (f g)) -> keeps P Q (modify (D := D) f).
Proof. intros Pf s Ps. split; [constructor | apply Pf; exact Ps]. Qed.

Lemma keeps_bind {A B} (P : Globals -> Prop) (Q : Event -> Prop)
    (m : M D A) (k : A -> M D B) :
  keeps P Q m -> (forall a, keeps P Q (k a)) -> keeps P Q (bind m k).
Proof.
  intros Km Kk s Ps. destruct (Km s Ps) as (Qm & Pm). unfold bind.
  destruct (m s) as [[a | msg | code] s1 e1]; cbn in *; auto.
  destruct (Kk a s1 Pm) as (Qk & Pk).
  destruct (k a s1) as [o s2 e2]; cbn in *.
  split; [apply Forall_app; split; assumption | exact Pk].
Qed.

(** Walks through a program built from the primitives. *)
Ltac keeps_program :=
  repeat first
    [ apply keeps_bind; [ | intros ? ]
    | apply keeps_ret
    | apply keeps_panic
    | apply keeps_get
    | apply keeps_call; cbn; solve [auto]
    | apply keeps_ask; intros ?; cbn; solve [auto]
    | apply keeps_askS; intros ?; cbn; solve [auto]
    | apply keeps_modify; intros ? ?; cbn; solve [auto]
    | match goal with
      | |- keeps _ _ (if ?b then _ else _) => destruct b
      end ].

Lemma count_none (f : Event -> bool) (tr : list Event) :
  Forall (fun e => f e = false) tr -> count f tr = 0%nat.
Proof.
  unfold count. induction 1 as [ | e tr Fe _ IH]; cbn; [reflexivity | ].
  rewrite Fe. exact IH.
Qed.

Lemma last_zero (codes : list Z) :
  Forall (fun e => e = 0) codes -> last codes 0 = 0.
Proof.
  induction 1 as [ | c cs C _ IH]; [reflexivity | ].
  destruct cs; [exact C | exact IH].
Qed.

(** *** Results of a sequence *)

Lemma bind_Ok {A B} (m : M D A) (k : A -> M D B) (s : State D) (a : A) :
  outcome (m s) = Ok a ->
  bind m k s =
    mkResult (outcome (k a (final (m s)))) (final (k a (final (m s))))
             (emitted (m s) ++ emitted (k a (final (m s)))).
Proof.
  unfold bind. destruct (m s) as [o s1 e1]; cbn. intros ->.
  destruct (k a s1); reflexivity.
Qed.

Lemma bind_Panic {A B} (m : M D A) (k : A -> M D B) (s : State D) (msg : string) :
  outcome (m s) = Panic msg ->
  bind m k s = mkResult (Panic msg) (final (m s)) (emitted (m s)).
Proof. unfold bind. destruct (m s) as [o s1 e1]; cbn. intros ->. reflexivity. Qed.

(** *** initShaders *)

(** The calls of [initShaders] once the program is linked. *)
Lemma initShaders_tail (program : Z) (s : State D) :
  exists pos color vb cb s',
    (call (glUseProgram program) ;;
     pos <- ask (glGetAttribLocation program "pos") ;;
     modify (set_attrPos (uint pos)) ;;
     color <- ask (glGetAttribLocation program "color") ;;
     modify (set_attrColor (uint color)) ;;
     vb <- ask (glGenBuffers 1) ;;
     modify (set_verticesArrayBuffer vb) ;;
     call (glBindBuffer gl.ARRAY_BUFFER vb) ;;
     call (glBufferData gl.ARRAY_BUFFER (Z.of_nat (List.length vertices) * 4)
                        vertices gl.STATIC_DRAW) ;;
     cb <- ask (glGenBuffers 1) ;;
     modify (set_colorsArrayBuffer cb) ;;
     call (glBindBuffer gl.ARRAY_BUFFER cb) ;;
     call (glBufferData gl.ARRAY_BUFFER (Z.of_nat (List.length colors) * 4)
                        colors gl.STATIC_DRAW) ;;
     g <- get ;;
     call (glEnableVertexAttribArray (attrPos g)) ;;
     call (glEnableVertexAttribArray (attrColor g)) ;;
     call (glClearColor 0 0 0 1))%go s =
    mkResult (Ok tt)
      (mkState s'
         (mkGlobals vb cb (uint pos) (uint color)
                    (currWidth (globals s)) (currHeight (globals s))))
      [ Did (glUseProgram program);
        Asked (glGetAttribLocation program "pos") pos;
        Asked (glGetAttribLocation program "color") color;
        Asked (glGenBuffers 1) vb;
        Did (glBindBuffer gl.ARRAY_BUFFER vb);
        Did (glBufferData gl.ARRAY_BUFFER 48 vertices gl.STATIC_DRAW);
        Asked (glGenBuffers 1) cb;
        Did (glBindBuffer gl.ARRAY_BUFFER cb);
        Did (glBufferData gl.ARRAY_BUFFER 48 colors gl.STATIC_DRAW);
        Did (glEnableVertexAttribArray (uint pos));
        Did (glEnableVertexAttribArray (uint color));
        Did (glClearColor 0 0 0 1) ].
Proof.
  unfold bind, call, ask, modify, get. cbn.
  do 5 eexists. reflexivity.
Qed.

Lemma FragmentShader_no_program (src : string) :
  keeps (fun _ => True) (fun e => is_use_program e = false) (FragmentShader (D := D) src).
Proof. unfold FragmentShader, check. keeps_program. Qed.

(** [initShaders] either gets through, leaving the handles it obtained in
    the package variables, or panics in a [check] of [FragmentShader]. *)
Lemma initShaders_run (s : State D) :
  let r := initShaders s in
  (exists p pos color vb cb before,
     outcome r = Ok tt /\
     emitted r =
       (before ++
        [ Did (glUseProgram p);
          Asked (glGetAttribLocation p "pos") pos;
          Asked (glGetAttribLocation p "color") color;
          Asked (glGenBuffers 1) vb;
          Did (glBindBuffer gl.ARRAY_BUFFER vb);
          Did (glBufferData gl.ARRAY_BUFFER 48 vertices gl.STATIC_DRAW);
          Asked (glGenBuffers 1) cb;
          Did (glBindBuffer gl.ARRAY_BUFFER cb);
          Did (glBufferData gl.ARRAY_BUFFER 48 colors gl.STATIC_DRAW);
          Did (glEnableVertexAttribArray (uint pos));
          Did (glEnableVertexAttribArray (uint color));
          Did (glClearColor 0 0 0 1) ])%list /\
     In (Asked glCreateProgram p) before /\
     error_codes before = [0; 0; 0] /\
     count is_use_program before = 0%nat /\
     globals (final r) =
       mkGlobals vb cb (uint pos) (uint color)
                 (currWidth (globals s)) (currHeight (globals s)))
  \/
  (exists error,
     error <> 0 /\
     outcome r = Panic ("An error occurred! Code: " ++ HexString.of_Z error) /\
     last (error_codes (emitted r)) 0 = error /\
     count is_use_program (emitted r) = 0%nat /\
     globals (final r) = globals s).
Proof.
  cbv zeta. unfold initShaders.
  destruct (FragmentShader_run fsh s)
    as [(f & st1 & lg1 & O1 & E1 & G1) | (e & pre & N & O1 & E1 & _ & _ & G1)].
  - rewrite (bind_Ok _ _ _ O1). cbn [outcome final emitted].
    set (s1 := final (FragmentShader fsh s)) in *.
    destruct (VertexShader_run vsh s1) as (v & st2 & lg2 & O2 & E2 & G2).
    rewrite (bind_Ok _ _ _ O2). cbn [outcome final emitted].
    set (s2 := final (VertexShader vsh s1)) in *.
    destruct (Program_run f v s2) as (p & st3 & lg3 & O3 & E3 & G3).
    rewrite (bind_Ok _ _ _ O3). cbn [outcome final emitted].
    set (s3 := final (Program f v s2)) in *.
    destruct (initShaders_tail p s3) as (pos & color & vb & cb & s' & T).
    rewrite T. cbn [outcome final emitted].
    left. exists p, pos, color, vb, cb.
    exists (emitted (FragmentShader fsh s) ++ emitted (VertexShader vsh s1)
            ++ emitted (Program f v s2))%list.
    split; [reflexivity | ]. split; [rewrite <- !app_assoc; reflexivity | ].
    rewrite E1, E2, E3. split; [ | split; [ | split ] ].
    + apply in_or_app; right. apply in_or_app; right. left. reflexivity.
    + unfold error_codes. rewrite !flat_map_app.
      destruct (st1 =? 0)%Z, (st2 =? 0)%Z, (st3 =? 0)%Z; reflexivity.
    + rewrite !count_app.
      destruct (st1 =? 0)%Z, (st2 =? 0)%Z, (st3 =? 0)%Z; reflexivity.
    + rewrite G3, G2, G1. reflexivity.
  - rewrite (bind_Panic _ _ _ O1). cbn [outcome final emitted].
    right. exists e. split; [exact N | ]. split; [reflexivity | ].
    split; [ | split; [ | exact G1 ] ].
    + rewrite E1. unfold error_codes. rewrite flat_map_app. cbn. apply last_last.
    + apply count_none. apply (FragmentShader_no_program fsh s I).
Qed.

(** When [initShaders] gets through, the package variables hold what the
    driver handed out: the two buffer names in the order they were
    generated and the two attribute locations converted to [uint]; the
    window size is untouched.  The vertices are uploaded, 48 bytes, into
    the first buffer and the colours into the second, and the program in
    use is the one [gl.CreateProgram] returned. *)
Theorem initShaders_sets_up (s : State D) :
  outcome (initShaders s) = Ok tt ->
  exists p pos color vb cb before,
    emitted (initShaders s) =
      (before ++
       [ Did (glUseProgram p);
         Asked (glGetAttribLocation p "pos") pos;
         Asked (glGetAttribLocation p "color") color;
         Asked (glGenBuffers 1) vb;
         Did (glBindBuffer gl.ARRAY_BUFFER vb);
         Did (glBufferData gl.ARRAY_BUFFER 48 vertices gl.STATIC_DRAW);
         Asked (glGenBuffers 1) cb;
         Did (glBindBuffer gl.ARRAY_BUFFER cb);
         Did (glBufferData gl.ARRAY_BUFFER 48 colors gl.STATIC_DRAW);
         Did (glEnableVertexAttribArray (uint pos));
         Did (glEnableVertexAttribArray (uint color));
         Did (glClearColor 0 0 0 1) ])%list /\
    In (Asked glCreateProgram p) before /\
    count is_use_program before = 0%nat /\
    globals (final (initShaders s)) =
      mkGlobals vb cb (uint pos) (uint color)
                (currWidth (globals s)) (currHeight (globals s)).
Proof.
  intros O.
  destruct (initShaders_run s)
    as [(p & pos & color & vb & cb & before & _ & E & I & _ & U & G)
       | (e & _ & Pn & _)].
  - exists p, pos, color, vb, cb, before. auto.
  - rewrite Pn in O. discriminate.
Qed.

(** [initShaders] gets through if and only if the three error codes
    [FragmentShader] reads are all 0.  Otherwise it panics with the message
    of [check] on the first nonzero code, before any program is used and
    with the package variables as they were.  No compile or link status
    makes it stop: a program that failed to link is put to use all the
    same. *)
Theorem initShaders_aborts_only_in_check (s : State D) :
  let r := initShaders s in
  (outcome r = Ok tt <-> Forall (fun e => e = 0) (error_codes (emitted r))) /\
  ((outcome r = Ok tt /\
    error_codes (emitted r) = [0; 0; 0] /\
    count is_use_program (emitted r) = 1%nat)
   \/
   (exists error,
      error <> 0 /\
      outcome r = Panic ("An error occurred! Code: " ++ HexString.of_Z error) /\
      last (error_codes (emitted r)) 0 = error /\
      count is_use_program (emitted r) = 0%nat /\
      globals (final r) = globals s)).
Proof.
  cbv zeta.
  destruct (initShaders_run s)
    as [(p & pos & color & vb & cb & before & O & E & _ & C & U & _)
       | (e & N & Pn & L & U & G)].
  - assert (C' : error_codes (emitted (initShaders s)) = [0; 0; 0]).
    { rewrite E. unfold error_codes in *. rewrite flat_map_app, C. reflexivity. }
    split.
    + split; [ | intros _; exact O ].
      intros _. rewrite C'. repeat constructor.
    + left. split; [exact O | ]. split; [exact C' | ].
      rewrite E, count_app, U. reflexivity.
  - split.
    + split; [intros O; rewrite Pn in O; discriminate | ].
      intros F. exfalso. apply N. rewrite <- L. apply last_zero. exact F.
    + right. exists e. auto.
Qed.

(** *** draw after initShaders *)

Lemma draw_run (width height : Z) (s : State D) :
  exists s',
    draw width height s =
      mkResult (Ok tt) (mkState s' (globals s))
        [ Did (glViewport 0 0 width height);
          Did (glClear (Z.lor gl.COLOR_BUFFER_BIT gl.DEPTH_BUFFER_BIT));
          Did (glBindBuffer gl.ARRAY_BUFFER (verticesArrayBuffer (globals s)));
          Did (glVertexAttribPointer (attrPos (globals s)) 4 gl.FLOAT false 0 0);
          Did (glBindBuffer gl.ARRAY_BUFFER (colorsArrayBuffer (globals s)));
          Did (glVertexAttribPointer (attrColor (globals s)) 4 gl.FLOAT false 0 0);
          Did (glDrawArrays gl.TRIANGLES 0 3);
          Did glFlush;
          Did glFinish ].
Proof. eexists. reflexivity. Qed.

(** What [initShaders] sets up is what [draw] uses.  The buffer [draw] binds
    for the position attribute is the one the vertices were uploaded into,
    the buffer it binds for the colour attribute the one the colours were
    uploaded into, and the two attribute indices are the locations of "pos"
    and "color" in the program in use, the same indices [initShaders]
    enabled. *)
Theorem draw_uses_what_initShaders_made (width height : Z) (s : State D) :
  outcome (initShaders s) = Ok tt ->
  exists p pos color vb cb before,
    emitted (initShaders s) =
      (before ++
       [ Did (glUseProgram p);
         Asked (glGetAttribLocation p "pos") pos;
         Asked (glGetAttribLocation p "color") color;
         Asked (glGenBuffers 1) vb;
         Did (glBindBuffer gl.ARRAY_BUFFER vb);
         Did (glBufferData gl.ARRAY_BUFFER 48 vertices gl.STATIC_DRAW);
         Asked (glGenBuffers 1) cb;
         Did (glBindBuffer gl.ARRAY_BUFFER cb);
         Did (glBufferData gl.ARRAY_BUFFER 48 colors gl.STATIC_DRAW);
         Did (glEnableVertexAttribArray (uint pos));
         Did (glEnableVertexAttribArray (uint color));
         Did (glClearColor 0 0 0 1) ])%list /\
    outcome (draw width height (final (initShaders s))) = Ok tt /\
    emitted (draw width height (final (initShaders s))) =
      [ Did (glViewport 0 0 width height);
        Did (glClear 0x4100);
        Did (glBindBuffer gl.ARRAY_BUFFER vb);
        Did (glVertexAttribPointer (uint pos) 4 gl.FLOAT false 0 0);
        Did (glBindBuffer gl.ARRAY_BUFFER cb);
        Did (glVertexAttribPointer (uint color) 4 gl.FLOAT false 0 0);
        Did (glDrawArrays gl.TRIANGLES 0 3);
        Did glFlush;
        Did glFinish ].
Proof.
  intros O.
  destruct (initShaders_run s)
    as [(p & pos & color & vb & cb & before & _ & E & _ & _ & _ & G)
       | (e & _ & Pn & _)]; [ | rewrite Pn in O; discriminate ].
  exists p, pos, color, vb, cb, before. split; [exact E | ].
  destruct (draw_run width height (final (initShaders s))) as (s' & Dr).
  rewrite Dr, G. split; reflexivity.
Qed.

(** *** The setup of Run *)

Lemma bind_Exit {A B} (m : M D A) (k : A -> M D B) (s : State D) (code : Z) :
  outcome (m s) = Exit code ->
  bind m k s = mkResult (Exit code) (final (m s)) (emitted (m s)).
Proof. unfold bind. destruct (m s) as [o s1 e1]; cbn. intros ->. reflexivity. Qed.

Lemma initialize_run (s : State D) :
  (exists err,
     outcome (initialize s) = Exit 1 /\
     emitted (initialize s) = [NewConn (Some err); Did (log_Fatal err)] /\
     globals (final (initialize s)) = globals s)
  \/
  (exists xWindow,
     outcome (initialize s) = Ok tt /\
     emitted (initialize s) =
       [ NewConn None;
         Did mousebind_Initialize;
         Asked (newWindow INITIAL_WINDOW_WIDTH INITIAL_WINDOW_HEIGHT) xWindow;
         Did go_xevent_Main;
         Did (xorg_Initialize xWindow) ] /\
     globals (final (initialize s)) = globals s).
Proof.
  unfold initialize. destruct (fst (xgbutil_NewConn (drv s))) as [err | ].
  - left. exists err. cbn. auto.
  - right. eexists. cbn. auto.
Qed.

Lemma Run_setup_run (s : State D) :
  (exists err,
     outcome (Run_setup s) = Exit 1 /\
     emitted (Run_setup s) =
       [Did runtime_LockOSThread; NewConn (Some err); Did (log_Fatal err)] /\
     globals (final (Run_setup s)) = globals s)
  \/
  (exists xWindow s2,
     size_is INITIAL_WINDOW_WIDTH INITIAL_WINDOW_HEIGHT (globals s2) /\
     outcome (Run_setup s) = outcome (initShaders s2) /\
     final (Run_setup s) = final (initShaders s2) /\
     emitted (Run_setup s) =
       ([ Did runtime_LockOSThread;
          NewConn None;
          Did mousebind_Initialize;
          Asked (newWindow INITIAL_WINDOW_WIDTH INITIAL_WINDOW_HEIGHT) xWindow;
          Did go_xevent_Main;
          Did (xorg_Initialize xWindow);
          Did (glViewport 0 0 INITIAL_WINDOW_WIDTH INITIAL_WINDOW_HEIGHT) ]
        ++ emitted (initShaders s2))%list).
Proof.
  unfold Run_setup.
  rewrite (bind_Ok _ _ _ (eq_refl : outcome (call runtime_LockOSThread s) = Ok tt)).
  cbn [outcome final emitted].
  set (s0 := final (call runtime_LockOSThread s)).
  destruct (initialize_run s0) as [(err & O & E & G) | (w & O & E & G)].
  - left. exists err. rewrite (bind_Exit _ _ _ O). cbn [outcome final emitted].
    rewrite E, G. repeat split.
  - right. rewrite (bind_Ok _ _ _ O). cbn [outcome final emitted].
    set (s1 := final (initialize s0)) in *.
    rewrite (bind_Ok _ _ _
      (eq_refl : outcome (reshape INITIAL_WINDOW_WIDTH INITIAL_WINDOW_HEIGHT s1) = Ok tt)).
    cbn [outcome final emitted].
    exists w. eexists. split; [ | split; [reflexivity | split; [reflexivity | ] ] ].
    + split; reflexivity.
    + rewrite E. reflexivity.
Qed.

(** *** Run as a whole *)

(** A run of [Run] is its setup and, when the setup got through, a run of
    the loop from where the setup ended. *)
Lemma Run_inv (l : renderLoop) (ins : list Input) (s : State D)
    (r : Result D renderLoop) :
  Run l ins s = Some r ->
  (exists r',
     outcome (Run_setup s) = Ok tt /\
     Run_loop ins l (final (Run_setup s)) = Some r' /\
     outcome r = outcome r' /\
     final r = final r' /\
     emitted r = (emitted (Run_setup s) ++ emitted r')%list)
  \/
  (final r = final (Run_setup s) /\
   emitted r = emitted (Run_setup s) /\
   ((exists msg, outcome (Run_setup s) = Panic msg /\ outcome r = Panic msg) \/
    (exists code, outcome (Run_setup s) = Exit code /\ outcome r = Exit code))).
Proof.
  unfold Run. destruct (Run_setup s) as [[[] | msg | code] s1 e1]; cbn.
  - destruct (Run_loop ins l s1) as [[o2 s2 e2] | ]; [ | discriminate ].
    intros R. inversion R; subst. left. eexists. cbn. auto 10.
  - intros R. inversion R; subst. right. cbn. eauto 10.
  - intros R. inversion R; subst. right. cbn. eauto 10.
Qed.

(** No OpenGL ES or EGL call is made before the platform is set up.  In
    every run of [Run], an event that is such a call comes after the X
    connection was made, the window was created and [xorg.Initialize] was
    called on that window; in particular, when the connection fails no such
    call is made at all. *)
Theorem Run_graphics_after_platform_setup
    (l : renderLoop) (ins : list Input) (s : State D) (r : Result D renderLoop)
    (before after : list Event) (e : Event) :
  Run l ins s = Some r ->
  emitted r = (before ++ e :: after)%list ->
  is_graphics e = true ->
  exists xWindow,
    In (NewConn None) before /\
    In (Asked (newWindow INITIAL_WINDOW_WIDTH INITIAL_WINDOW_HEIGHT) xWindow) before /\
    In (Did (xorg_Initialize xWindow)) before.
Proof.
  intros R E Gr.
  assert (P : (exists err,
                 emitted r =
                   [Did runtime_LockOSThread; NewConn (Some err); Did (log_Fatal err)])
              \/
              (exists w rest,
                 emitted r =
                   ([ Did runtime_LockOSThread;
                      NewConn None;
                      Did mousebind_Initialize;
                      Asked (newWindow INITIAL_WINDOW_WIDTH INITIAL_WINDOW_HEIGHT) w;
                      Did go_xevent_Main;
                      Did (xorg_Initialize w) ] ++ rest)%list)).
  { destruct (Run_setup_run s) as [(err & O & Es & _) | (w & s2 & _ & _ & _ & Es)];
      destruct (Run_inv _ _ _ R)
        as [(r' & O' & _ & _ & _ & Er) | (_ & Er & _)].
    - rewrite O in O'. discriminate.
    - left. exists err. congruence.
    - right. exists w. eexists. rewrite Er, Es. cbn. reflexivity.
    - right. exists w. eexists. rewrite Er, Es. cbn. reflexivity. }
  destruct P as [(err & P) | (w & rest & P)]; rewrite P in E; clear P.
  - destruct before as [ | b1 [ | b2 [ | b3 [ | b4 before]]]];
      inversion E; subst; discriminate.
  - destruct before as [ | b1 [ | b2 [ | b3 [ | b4 [ | b5 [ | b6 before]]]]]];
      inversion E; subst; try discriminate.
    exists w. cbn. auto 10.
Qed.

End Coverage.

(** ** Runs with the scripted driver *)

(** [Run] sets up and serves the first tick: one frame, drawn on the
    window size [reshape] recorded and with the buffers [initShaders] made. *)
Example Run_first_frame :
  exists r,
    Run loop24 [TimerFires; Ready RecvTick 0] all_well = Some r /\
    outcome r = Ok loop24 /\
    globals (final r) = mkGlobals 10 11 0 1 640 480 /\
    count is_draw (emitted r) = 1%nat /\
    skipn 35 (emitted r) =
      [ Did (glViewport 0 0 640 480);
        Did (glClear 0x4100);
        Did (glBindBuffer gl.ARRAY_BUFFER 10);
        Did (glVertexAttribPointer 0 4 gl.FLOAT false 0 0);
        Did (glBindBuffer gl.ARRAY_BUFFER 11);
        Did (glVertexAttribPointer 1 4 gl.FLOAT false 0 0);
        Did (glDrawArrays gl.TRIANGLES 0 3);
        Did glFlush;
        Did glFinish;
        Did (eglSwapBuffers platform_Display platform_Surface) ].
Proof. eexists. split; [vm_compute; reflexivity | ]. repeat split. Qed.

(** Without an X server [Run] ends in [initialize] and the loop is never
    entered, whatever inputs are waiting. *)
Example Run_without_display :
  Run loop24 [TimerFires; Ready RecvTick 0] no_display =
    Some (mkResult (Exit 1) no_display
            [ Did runtime_LockOSThread;
              NewConn (Some "cannot open display");
              Did (log_Fatal "cannot open display") ]).
Proof. reflexivity. Qed.

(** A fragment shader that fails to compile is still returned, and its info
    log is fetched and dropped. *)
Example FragmentShader_compile_failure :
  outcome (FragmentShader fsh compile_failure) = Ok 7 /\
  last (emitted (FragmentShader fsh compile_failure)) (Did glFlush) =
    AskedS (glGetShaderInfoLog 7 1000) "0:1: syntax error".
Proof. split; reflexivity. Qed.

(** C8 as stated fails for [FragmentShader]: with a pending GL error it
    panics in its first [check] and asks for no status at all. *)
Lemma FragmentShader_asks_no_status_on_gl_error :
  status_queries (emitted (FragmentShader fsh invalid_value)) = [] /\
  existsb is_info_log (emitted (FragmentShader fsh invalid_value)) = false /\
  outcome (FragmentShader fsh invalid_value) =
    Panic "An error occurred! Code: 0x501".
Proof. repeat split. Qed.

(** C9 as stated fails: with a pending GL error [FragmentShader] panics in
    its first [check] and returns no handle. *)
Lemma FragmentShader_panics_on_gl_error :
  emitted (FragmentShader fsh invalid_value) =
    [Asked (glCreateShader gl.FRAGMENT_SHADER) 7; Asked glGetError 0x0501] /\
  outcome (FragmentShader fsh invalid_value) =
    Panic "An error occurred! Code: 0x501" /\
  forall shader, outcome (FragmentShader fsh invalid_value) <> Ok shader.
Proof. repeat split; try reflexivity. intros shader. discriminate. Qed.

Lemma initialize_fatal_witness :
  fst (xgbutil_NewConn (drv no_display)) = Some "cannot open display" /\
  outcome (initialize no_display) = Exit 1.
Proof.
  split; [reflexivity | ].
  exact (proj1 (@initialize_fatal_on_connection_error Script scripted unit
                  (fun _ : unit => ret tt) "cannot open display" no_display eq_refl)).
Defined.

Lemma newRenderLoop_period_witness :
  1 <= 60 <= 1000000000 /\
  newRenderLoop 60 =
    Ok (mkRenderLoop (mkTicker 16666666 false false) pauseCh terminateCh).
Proof.
  assert (R : 1 <= 60 <= 1000000000) by (split; discriminate).
  split; [exact R | exact (proj1 (proj2 (newRenderLoop_period 60)) R)].
Defined.

Lemma pause_is_permanent_witness :
  exists r,
    Run_loop [Ready RecvPause 0; TimerFires; Ready RecvTerminate 0] loop24 quiet = Some r /\
    exists l',
      outcome r = Ok l' /\
      stopped (ticker l') = true /\
      pending (ticker l') = false /\
      count is_ticker_stop (emitted r) <> 0%nat /\
      count is_draw (emitted r) = 0%nat /\
      count is_swap (emitted r) = 0%nat.
Proof.
  eexists. split; [reflexivity | ].
  apply (pause_is_permanent 0 [TimerFires; Ready RecvTerminate 0] loop24 quiet).
  reflexivity.
Defined.

(** ** Runs that meet the hypotheses of the theorems on the rest of the
    program *)

Lemma Run_loop_never_aborts_witness :
  exists r,
    Run_loop busy loop24 quiet = Some r /\
    exists l',
      outcome r = Ok l' /\
      globals (final r) = globals quiet /\
      pause l' = pause loop24 /\
      terminate l' = terminate loop24 /\
      period (ticker l') = period (ticker loop24) /\
      count is_get_error (emitted r) = 0%nat.
Proof.
  eexists. split; [vm_compute; reflexivity | ].
  apply (@Run_loop_never_aborts Script scripted busy loop24 quiet). vm_compute; reflexivity.
Defined.

Lemma Run_loop_frames_witness :
  exists r,
    Run_loop busy loop24 quiet = Some r /\
    count is_draw (emitted r) = inputs is_tick_received busy /\
    count is_swap (emitted r) = inputs is_tick_received busy.
Proof.
  eexists. split; [vm_compute; reflexivity | ].
  apply (@Run_loop_frames Script scripted busy loop24 quiet). vm_compute; reflexivity.
Defined.

Lemma Run_loop_frames_bounded_witness :
  exists r,
    Run_loop busy loop24 quiet = Some r /\
    exists l',
      outcome r = Ok l' /\
      (count is_draw (emitted r) + b2n (pending (ticker l'))
       <= inputs is_fire busy + b2n (pending (ticker loop24)))%nat.
Proof.
  eexists. split; [vm_compute; reflexivity | ].
  apply (@Run_loop_frames_bounded Script scripted busy loop24 quiet). vm_compute; reflexivity.
Defined.

Lemma Run_loop_acknowledges_witness :
  exists r,
    Run_loop busy loop24 quiet = Some r /\
    (exists blocks,
       emitted r = List.concat blocks /\
       Forall2 (answers loop24) busy blocks) /\
    count is_ticker_stop (emitted r) = inputs is_pause_request busy /\
    count is_destroy_surface (emitted r) = inputs is_terminate_request busy /\
    count is_destroy_context (emitted r) = inputs is_terminate_request busy /\
    count is_egl_terminate (emitted r) = inputs is_terminate_request busy /\
    count is_send (emitted r) =
      (inputs is_pause_request busy + inputs is_terminate_request busy)%nat /\
    count is_send_0 (emitted r) = count is_send (emitted r).
Proof.
  eexists. split; [vm_compute; reflexivity | ].
  apply (@Run_loop_acknowledges Script scripted busy loop24 quiet). vm_compute; reflexivity.
Defined.

Lemma initShaders_sets_up_witness :
  outcome (initShaders link_failure) = Ok tt /\
  exists p pos color vb cb before,
    emitted (initShaders link_failure) =
      (before ++
       [ Did (glUseProgram p);
         Asked (glGetAttribLocation p "pos") pos;
         Asked (glGetAttribLocation p "color") color;
         Asked (glGenBuffers 1) vb;
         Did (glBindBuffer gl.ARRAY_BUFFER vb);
         Did (glBufferData gl.ARRAY_BUFFER 48 vertices gl.STATIC_DRAW);
         Asked (glGenBuffers 1) cb;
         Did (glBindBuffer gl.ARRAY_BUFFER cb);
         Did (glBufferData gl.ARRAY_BUFFER 48 colors gl.STATIC_DRAW);
         Did (glEnableVertexAttribArray (uint pos));
         Did (glEnableVertexAttribArray (uint color));
         Did (glClearColor 0 0 0 1) ])%list /\
    In (Asked glCreateProgram p) before /\
    count is_use_program before = 0%nat /\
    globals (final (initShaders link_failure)) =
      mkGlobals vb cb (uint pos) (uint color)
                (currWidth (globals link_failure)) (currHeight (globals link_failure)).
Proof.
  split; [vm_compute; reflexivity | ].
  apply (@initShaders_sets_up Script scripted link_failure). vm_compute; reflexivity.
Defined.

Lemma draw_uses_what_initShaders_made_witness :
  outcome (initShaders link_failure) = Ok tt /\
  exists p pos color vb cb before,
    emitted (initShaders link_failure) =
      (before ++
       [ Did (glUseProgram p);
         Asked (glGetAttribLocation p "pos") pos;
         Asked (glGetAttribLocation p "color") color;
         Asked (glGenBuffers 1) vb;
         Did (glBindBuffer gl.ARRAY_BUFFER vb);
         Did (glBufferData gl.ARRAY_BUFFER 48 vertices gl.STATIC_DRAW);
         Asked (glGenBuffers 1) cb;
         Did (glBindBuffer gl.ARRAY_BUFFER cb);
         Did (glBufferData gl.ARRAY_BUFFER 48 colors gl.STATIC_DRAW);
         Did (glEnableVertexAttribArray (uint pos));
         Did (glEnableVertexAttribArray (uint color));
         Did (glClearColor 0 0 0 1) ])%list /\
    outcome (draw 640 480 (final (initShaders link_failure))) = Ok tt /\
    emitted (draw 640 480 (final (initShaders link_failure))) =
      [ Did (glViewport 0 0 640 480);
        Did (glClear 0x4100);
        Did (glBindBuffer gl.ARRAY_BUFFER vb);
        Did (glVertexAttribPointer (uint pos) 4 gl.FLOAT false 0 0);
        Did (glBindBuffer gl.ARRAY_BUFFER cb);
        Did (glVertexAttribPointer (uint color) 4 gl.FLOAT false 0 0);
        Did (glDrawArrays gl.TRIANGLES 0 3);
        Did glFlush;
        Did glFinish ].
Proof.
  split; [vm_compute; reflexivity | ].
  apply (@draw_uses_what_initShaders_made Script scripted 640 480 link_failure).
  vm_compute; reflexivity.
Defined.

Lemma Run_graphics_after_platform_setup_witness :
  exists r after,
    Run loop24 [TimerFires; Ready RecvTick 0] all_well = Some r /\
    emitted r =
      ([ Did runtime_LockOSThread;
         NewConn None;
         Did mousebind_Initialize;
         Asked (newWindow 640 480) 99;
         Did go_xevent_Main;
         Did (xorg_Initialize 99) ]
       ++ Did (glViewport 0 0 640 480) :: after)%list /\
    exists xWindow,
      In (NewConn None)
         [ Did runtime_LockOSThread; NewConn None; Did mousebind_Initialize;
           Asked (newWindow 640 480) 99; Did go_xevent_Main;
           Did (xorg_Initialize 99) ] /\
      In (Asked (newWindow INITIAL_WINDOW_WIDTH INITIAL_WINDOW_HEIGHT) xWindow)
         [ Did runtime_LockOSThread; NewConn None; Did mousebind_Initialize;
           Asked (newWindow 640 480) 99; Did go_xevent_Main;
           Did (xorg_Initialize 99) ] /\
      In (Did (xorg_Initialize xWindow))
         [ Did runtime_LockOSThread; NewConn None; Did mousebind_Initialize;
           Asked (newWindow 640 480) 99; Did go_xevent_Main;
           Did (xorg_Initialize 99) ].
Proof.
  do 2 eexists. split; [vm_compute; reflexivity | ].
  split; [vm_compute; reflexivity | ].
  eapply (@Run_graphics_after_platform_setup Script scripted loop24
            [TimerFires; Ready RecvTick 0] all_well);
    vm_compute; reflexivity.
Defined.
